(** * Container lifecycle orchestrator of uniweb

    A shallow embedding of [utils/docker_client.py] (the Docker wrappers)
    and of the lifecycle handlers of [blueprints/project.py]
    ([start_docker], its worker [_build_and_start], [stop_docker],
    [remove_docker], [project_docker_status]), with the properties the
    specification states about them.

    Handlers are computations over the process state: the Docker client
    and the daemon behind it, the status store, the project table, the
    configuration, and the worker threads that were started and have not
    run yet. A handler is modelled from its first statement on, that is
    after [login_required] and [group_required_pid] have let the request
    through. A worker thread runs when the scheduler picks it, at any later
    point, and then runs to its end. *)

From stdpp Require Import base strings gmap list.
From Stdlib Require Import ZArith.

Set Default Proof Using "Type".

(** ** Python values and exceptions *)

(** The exceptions that reach the handlers of the modelled code. *)
Inductive pyexn :=
| ImageNotFound          (* docker.errors.ImageNotFound *)
| NotFound               (* docker.errors.NotFound *)
| APIError               (* docker.errors.APIError *)
| BuildError             (* docker.errors.BuildError *)
| ConnectionError        (* requests: the daemon cannot be reached *)
| AttributeError         (* a method looked up on None *)
| DetachedInstanceError. (* ORM attribute loaded outside of its session *)

(** The classes named in the [except] clauses. *)
Inductive pyclass :=
| docker_errors_ImageNotFound
| docker_errors_NotFound
| docker_errors_APIError
| docker_errors_BuildError
| Exception.

(** [ImageNotFound <: NotFound <: APIError <: DockerException <: Exception],
    [BuildError <: DockerException]. *)
Definition isinstance (e : pyexn) (c : pyclass) : bool :=
  match c, e with
  | Exception, _ => true
  | docker_errors_ImageNotFound, ImageNotFound => true
  | docker_errors_NotFound, (NotFound | ImageNotFound) => true
  | docker_errors_APIError, (APIError | NotFound | ImageNotFound) => true
  | docker_errors_BuildError, BuildError => true
  | _, _ => false
  end.

(** What the code observes of a column value: its truth value and the
    result of [int(...)] on it ([None] when [int] raises). *)
Record pyobj := { truth : bool; as_int : option Z }.

Definition PyNone : pyobj := {| truth := false; as_int := None |}.
Definition PyInt (z : Z) : pyobj :=
  {| truth := negb (z =? 0)%Z; as_int := Some z |}.

(** [bool(x)] for an [Optional[int]]. *)
Definition truthy_int (o : option Z) : bool :=
  match o with
  | Some z => negb (z =? 0)%Z
  | None => false
  end.

(** [bool(x)] for an [Optional[str]]. *)
Definition truthy_str (o : option string) : bool :=
  match o with
  | Some s => negb (String.eqb s "")
  | None => false
  end.

(** ** Records of the surrounding application *)

(** [database/models.py], class [Project]: the columns the orchestrator reads. *)
Record Project := {
  pid : string;
  pname : string;
  docker_name : string;
  docker_image : string;
  port : pyobj;
  docker_port : pyobj;
}.

(** [app.config]: a key is absent ([None]) or holds a value. *)
Record Config := {
  WORKING_DIR : option string;
  CPU_COUNT : option Z;
  MEM_LIMIT : option string;
  MEMSWAP_LIMIT : option string;
  PIDS_LIMIT : option Z;
}.

(** The body and status code of a [jsonify(...)] reply. *)
Record Response := {
  success : bool;
  message : option string;
  status : option string;
  code : nat;
}.

(** ** The Docker SDK as seen by the wrappers *)

(** A [Container] object: a snapshot taken by [containers.get] / [containers.run]. *)
Record Container := {
  c_name : string;
  c_id : string;
  c_short_id : string;
  c_status : string;   (* running, exited, paused, restarting, ... *)
}.

(** Keyword arguments of [containers.run] that vary; [detach=True],
    [stdin_open=True], [tty=True], [remove=False] are constants of the call. *)
Record RunArgs := {
  r_image : string;
  r_name : string;
  r_container_port : option Z;   (* key of [ports], as "<port>/tcp" *)
  r_host_port : option Z;
  r_cpu_count : Z;
  r_mem_limit : string;
  r_memswap_limit : string;
  r_pids_limit : Z;
}.

(** Operations sent to the daemon, in the order they were issued. *)
Inductive Call :=
| CImagesGet (image_name : string)
| CImagesBuild (path tag : string)
| CContainersGet (container_name : string)
| CContainersRun (args : RunArgs)
| CStart (c : Container)
| CStop (c : Container)
| CRemove (c : Container) (force : bool).

(** The daemon behind [docker.from_env()]: every SDK call answers with a
    value or raises, and may change the daemon's state. *)
Class Engine (σ : Type) := {
  eng_images_get : string → σ → (pyexn + unit) * σ;
  eng_images_build : string → string → σ → (pyexn + unit) * σ;
  eng_containers_get : string → σ → (pyexn + Container) * σ;
  eng_containers_run : RunArgs → σ → (pyexn + Container) * σ;
  eng_start : Container → σ → (pyexn + unit) * σ;
  eng_stop : Container → σ → (pyexn + unit) * σ;
  eng_remove : Container → bool → σ → (pyexn + unit) * σ;
}.

(** Variables captured by the closure [_build_and_start] of [start_docker]. *)
Record Closure := {
  k_pid : string;
  k_project : Project;
  k_working_dir : option string;
  k_image_name : string;
  k_container_name : string;
  k_host_port : option Z;
  k_container_port : option Z;
  k_CPU_COUNT : Z;
  k_MEM_LIMIT : string;
  k_MEMSWAP_LIMIT : string;
  k_PIDS_LIMIT : Z;
  k_image_exists : bool;
  k_container_exists : bool;
}.

(** ** The process state *)

Section World.
Context {σ : Type}.

(** Everything a handler can read or change.

    [docker_client] is the module global of [docker_client.py]: [None]
    when [docker.from_env()] raised at import time.

    [faults] schedules the ORM failures of the worker thread: the worker
    formats its log lines from [project.pname] after the request that
    loaded [project] has ended; [true] at the head makes the next such
    access raise. *)
Record World := {
  docker_client : option σ;
  DOCKER_STATUS : gmap string string;
  projects : gmap string Project;
  config : Config;
  cwd : string;
  calls : list Call;
  threads : list Closure;
  faults : list bool;
}.

Definition set_docker_client (c : option σ) (w : World) : World :=
  {| docker_client := c; DOCKER_STATUS := DOCKER_STATUS w;
     projects := projects w; config := config w; cwd := cwd w;
     calls := calls w; threads := threads w; faults := faults w |}.

Definition set_DOCKER_STATUS (m : gmap string string) (w : World) : World :=
  {| docker_client := docker_client w; DOCKER_STATUS := m;
     projects := projects w; config := config w; cwd := cwd w;
     calls := calls w; threads := threads w; faults := faults w |}.

Definition set_calls (l : list Call) (w : World) : World :=
  {| docker_client := docker_client w; DOCKER_STATUS := DOCKER_STATUS w;
     projects := projects w; config := config w; cwd := cwd w;
     calls := l; threads := threads w; faults := faults w |}.

Definition set_threads (l : list Closure) (w : World) : World :=
  {| docker_client := docker_client w; DOCKER_STATUS := DOCKER_STATUS w;
     projects := projects w; config := config w; cwd := cwd w;
     calls := calls w; threads := l; faults := faults w |}.

Definition set_faults (l : list bool) (w : World) : World :=
  {| docker_client := docker_client w; DOCKER_STATUS := DOCKER_STATUS w;
     projects := projects w; config := config w; cwd := cwd w;
     calls := calls w; threads := threads w; faults := l |}.

(** ** Computations: state passing with exceptions *)

Inductive outcome (A : Type) :=
| Ret (a : A)
| Raise (e : pyexn).
Global Arguments Ret {A} a.
Global Arguments Raise {A} e.

Definition Py (A : Type) : Type := World → outcome A * World.

Definition py_ret {A} (a : A) : Py A := λ w, (Ret a, w).

Definition py_bind {A B} (f : A → Py B) (m : Py A) : Py B :=
  λ w, match m w with
       | (Ret a, w') => f a w'
       | (Raise e, w') => (Raise e, w')
       end.

Definition gets {A} (f : World → A) : Py A := λ w, (Ret (f w), w).

Definition modify (f : World → World) : Py unit := λ w, (Ret tt, f w).

(** [try: body except C1: h1 except C2: h2 ...]: the first clause whose
    class the exception is an instance of handles it. *)
Definition try_except {A} (body : Py A)
    (handlers : list (pyclass * (pyexn → Py A))) : Py A :=
  λ w, match body w with
       | (Ret a, w') => (Ret a, w')
       | (Raise e, w') =>
           match find (λ h, isinstance e h.1) handlers with
           | Some h => h.2 e w'
           | None => (Raise e, w')
           end
       end.

(** [try: body finally: fin]: [fin] runs on every exit of [body], be it a
    [return] or an exception; the exit of [body] is kept unless [fin] raises. *)
Definition try_finally {A} (body : Py A) (fin : Py unit) : Py A :=
  λ w, match body w with
       | (r, w1) =>
           match fin w1 with
           | (Ret _, w2) => (r, w2)
           | (Raise e, w2) => (Raise e, w2)
           end
       end.

Definition exec {A} (m : Py A) (w : World) : World := (m w).2.
Definition result {A} (m : Py A) (w : World) : outcome A := (m w).1.
End World.

Global Arguments World σ : clear implicits.
Global Arguments Py σ A : clear implicits.

#[global] Instance Py_ret {σ} : MRet (Py σ) := @py_ret σ.
#[global] Instance Py_bind {σ} : MBind (Py σ) := @py_bind σ.

(** ** SDK calls, the status store and logging as computations *)

Section Operations.
Context {σ : Type} `{!Engine σ}.

Definition of_sdk {A} (r : pyexn + A) : outcome A :=
  match r with
  | inl e => Raise e
  | inr a => Ret a
  end.

(** A call through [docker_client]: it is recorded, sent to the daemon, and
    its answer returned or raised. On a [None] client the attribute lookup
    itself raises. *)
Definition after_call (c : Call) (s' : σ) (w : World σ) : World σ :=
  set_calls (calls w ++ [c]) (set_docker_client (Some s') w).

Definition sdk_call {A} (c : Call) (op : σ → (pyexn + A) * σ) : Py σ A :=
  λ w, match docker_client w with
       | None => (Raise AttributeError, w)
       | Some s => (of_sdk (op s).1, after_call c (op s).2 w)
       end.

Definition images_get (image_name : string) : Py σ unit :=
  sdk_call (CImagesGet image_name) (eng_images_get image_name).

Definition images_build (path tag : string) : Py σ unit :=
  sdk_call (CImagesBuild path tag) (eng_images_build path tag).

Definition containers_get (container_name : string) : Py σ Container :=
  sdk_call (CContainersGet container_name) (eng_containers_get container_name).

Definition containers_run (args : RunArgs) : Py σ Container :=
  sdk_call (CContainersRun args) (eng_containers_run args).

Definition container_start (c : Container) : Py σ unit :=
  sdk_call (CStart c) (eng_start c).

Definition container_stop (c : Container) : Py σ unit :=
  sdk_call (CStop c) (eng_stop c).

Definition container_remove (c : Container) (force : bool) : Py σ unit :=
  sdk_call (CRemove c force) (eng_remove c force).

(** Modelled from the spec: [utils/redis_client.py], which defines the
    mapping [docker_status] imported as [DOCKER_STATUS], is not among the
    sources. Following the spec's Status Store contract ([get], [set],
    [clear], each atomic on one key), it is a finite map from project
    identifiers to strings whose operations never raise. *)
Definition DOCKER_STATUS_get (pid : string) : Py σ (option string) :=
  gets (λ w, DOCKER_STATUS w !! pid).

Definition DOCKER_STATUS_set (pid v : string) : Py σ unit :=
  modify (λ w, set_DOCKER_STATUS (<[pid := v]> (DOCKER_STATUS w)) w).

Definition DOCKER_STATUS_pop (pid : string) : Py σ unit :=
  modify (λ w, set_DOCKER_STATUS (delete pid (DOCKER_STATUS w)) w).

(** [logging] never raises and its output is not part of the state. *)
Inductive level := DEBUG | INFO | WARNING | ERROR.

Definition logger (l : level) (msg : string) : Py σ unit := mret tt.

(** [project.pname] evaluated on the worker thread, see [faults]. *)
Definition thread_pname (project : Project) : Py σ string :=
  λ w, match faults w with
       | true :: fs => (Raise DetachedInstanceError, set_faults fs w)
       | false :: fs => (Ret (pname project), set_faults fs w)
       | [] => (Ret (pname project), w)
       end.

(** A log statement of the worker whose f-string mentions [project.pname]. *)
Definition thread_logger (l : level) (project : Project) (msg : string) : Py σ unit :=
  n ← thread_pname project;
  logger l (msg +:+ n).

(** [threading.Thread(target=_build_and_start, daemon=True).start()]:
    the closure is handed to the scheduler and runs later. *)
Definition Thread_start (k : Closure) : Py σ unit :=
  modify (λ w, set_threads (threads w ++ [k]) w).

(** [database/actions.py], [get_project_by_pid]: the project or [None]. *)
Definition get_project_by_pid (pid : string) : Py σ (option Project) :=
  gets (λ w, projects w !! pid).

(** ** [utils/docker_client.py] *)

Definition _docker_image_exists (image_name : string) : Py σ bool :=
  client ← gets docker_client;
  if negb (bool_decide (is_Some client)) then
    logger WARNING "Docker client 未初始化，无法检查镜像";;
    mret false
  else
    try_except
      (images_get image_name;;
       logger DEBUG "镜像已存在";;
       mret true)
      [(docker_errors_ImageNotFound, λ _, logger DEBUG "镜像不存在";; mret false);
       (Exception, λ _, logger ERROR "检查镜像时发生异常";; mret false)].

Definition _docker_container_exists (container_name : string) : Py σ bool :=
  client ← gets docker_client;
  if negb (bool_decide (is_Some client)) then
    logger WARNING "Docker client 未初始化，无法检查容器";;
    mret false
  else
    try_except
      (containers_get container_name;;
       logger DEBUG "容器已存在";;
       mret true)
      [(docker_errors_NotFound, λ _, logger DEBUG "容器不存在";; mret false);
       (Exception, λ _, logger ERROR "检查容器时发生异常";; mret false)].

Definition _docker_container_status (container_name : string) : Py σ string :=
  client ← gets docker_client;
  if negb (bool_decide (is_Some client)) then
    logger DEBUG "Docker client 未初始化";;
    mret "stopped"
  else
    try_except
      (container ← containers_get container_name;
       let status := c_status container in
       logger DEBUG "容器状态";;
       if String.eqb status "running" then mret "running" else mret "stopped")
      [(docker_errors_NotFound, λ _, logger DEBUG "容器不存在";; mret "stopped");
       (Exception, λ _, logger ERROR "获取容器状态失败";; mret "stopped")].

Definition _docker_build_image (image_name : string) (path : option string) : Py σ bool :=
  client ← gets docker_client;
  if negb (bool_decide (is_Some client)) then
    logger WARNING "Docker client 未初始化，无法构建镜像";;
    mret false
  else
    try_except
      (wd ← gets cwd;
       let build_path := if truthy_str path then default wd path else wd in
       logger INFO "开始构建镜像";;
       images_build build_path image_name;;
       logger DEBUG "build_logs";;
       logger INFO "镜像构建成功";;
       mret true)
      [(docker_errors_BuildError, λ _, logger ERROR "镜像构建失败";; mret false);
       (Exception, λ _, logger ERROR "镜像构建异常";; mret false)].

(** Returns the container id, or the empty string on failure. *)
Definition _docker_run_container (image_name container_name : string)
    (host_port container_port : option Z) (cpu_count : Z)
    (mem_limit memswap_limit : string) (pids_limit : Z) : Py σ string :=
  client ← gets docker_client;
  if negb (bool_decide (is_Some client)) then
    logger WARNING "Docker client 未初始化，无法运行容器";;
    mret ""
  else
    try_except
      (container ← containers_run
         {| r_image := image_name; r_name := container_name;
            r_container_port := container_port; r_host_port := host_port;
            r_cpu_count := cpu_count; r_mem_limit := mem_limit;
            r_memswap_limit := memswap_limit; r_pids_limit := pids_limit |};
       logger INFO "容器创建并启动成功";;
       mret (c_id container))
      [(docker_errors_APIError, λ _, logger ERROR "容器运行失败";; mret "");
       (Exception, λ _, logger ERROR "容器运行异常";; mret "")].

Definition _docker_start_container (container_name : string) : Py σ bool :=
  client ← gets docker_client;
  if negb (bool_decide (is_Some client)) then
    logger WARNING "Docker client 未初始化，无法启动容器";;
    mret false
  else
    try_except
      (container ← containers_get container_name;
       container_start container;;
       logger INFO "容器启动成功";;
       mret true)
      [(docker_errors_NotFound, λ _, logger WARNING "容器不存在，无法启动";; mret false);
       (docker_errors_APIError, λ _, logger ERROR "容器启动失败";; mret false);
       (Exception, λ _, logger ERROR "容器启动异常";; mret false)].

Definition _docker_stop_container (container_name : string) : Py σ bool :=
  client ← gets docker_client;
  if negb (bool_decide (is_Some client)) then
    logger WARNING "Docker client 未初始化，无法停止容器";;
    mret false
  else
    try_except
      (container ← containers_get container_name;
       container_stop container;;
       logger INFO "容器停止成功";;
       mret true)
      [(docker_errors_NotFound, λ _, logger WARNING "容器不存在，无法停止";; mret false);
       (docker_errors_APIError, λ _, logger ERROR "容器停止失败";; mret false);
       (Exception, λ _, logger ERROR "容器停止异常";; mret false)].

Definition _docker_remove_container (container_name : string) : Py σ bool :=
  client ← gets docker_client;
  if negb (bool_decide (is_Some client)) then
    logger WARNING "Docker client 未初始化，无法删除容器";;
    mret false
  else
    try_except
      (container ← containers_get container_name;
       container_remove container true;;
       logger INFO "容器删除成功";;
       mret true)
      [(docker_errors_NotFound, λ _, logger WARNING "容器不存在，无法删除";; mret false);
       (docker_errors_APIError, λ _, logger ERROR "容器删除失败";; mret false);
       (Exception, λ _, logger ERROR "容器删除异常";; mret false)].

(** ** [blueprints/project.py] *)

Definition jsonify (success : bool) (message status : option string)
    (code : nat) : Response :=
  {| success := success; message := message; status := status; code := code |}.

(** [int(x) if x else None]; the outer [None] stands for [int] raising. *)
Definition int_or_None (x : pyobj) : option (option Z) :=
  if truth x then Some <$> as_int x else Some None.

(** The [try] that converts both ports: if either conversion raises, both
    are [None]. *)
Definition parse_ports (project : Project) : option Z * option Z :=
  match int_or_None (port project) with
  | Some host_port =>
      match int_or_None (docker_port project) with
      | Some container_port => (host_port, container_port)
      | None => (None, None)
      end
  | None => (None, None)
  end.

(** The guard [if not host_port or not container_port] lets the request pass. *)
Definition ports_configured (project : Project) : bool :=
  truthy_int (parse_ports project).1 && truthy_int (parse_ports project).2.

(** The worker thread of [start_docker], in three parts: the statements
    from the container check on, the [try] block, and the [finally] block.
    Every branch of the source ends in [return]; [create_or_start] runs
    unless the build failed. *)
Definition create_or_start (k : Closure) : Py σ unit :=
  let pid := k_pid k in
  let project := k_project k in
  let image_name := k_image_name k in
  let container_name := k_container_name k in
  if negb (k_container_exists k) then
    thread_logger INFO project "容器不存在，创建并运行";;
    container_id ← _docker_run_container image_name container_name
      (k_host_port k) (k_container_port k) (k_CPU_COUNT k)
      (k_MEM_LIMIT k) (k_MEMSWAP_LIMIT k) (k_PIDS_LIMIT k);
    if negb (String.eqb container_id "") then
      DOCKER_STATUS_set pid "running";;
      thread_logger INFO project "容器启动成功"
    else
      DOCKER_STATUS_set pid "stopped";;
      thread_logger ERROR project "容器创建失败"
  else
    thread_logger INFO project "容器已存在，尝试启动";;
    started ← _docker_start_container container_name;
    if started : bool then
      DOCKER_STATUS_set pid "running";;
      thread_logger INFO project "已存在容器启动成功"
    else
      DOCKER_STATUS_set pid "stopped";;
      thread_logger ERROR project "已存在容器启动失败".

Definition _build_and_start_try (k : Closure) : Py σ unit :=
  let pid := k_pid k in
  let project := k_project k in
  let image_name := k_image_name k in
  DOCKER_STATUS_set pid "starting";;
  thread_logger INFO project "开始启动项目容器";;
  if negb (k_image_exists k) then
    thread_logger INFO project "镜像不存在，开始构建";;
    success ← _docker_build_image image_name (k_working_dir k);
    if negb success then
      DOCKER_STATUS_set pid "stopped";;
      thread_logger ERROR project "镜像构建失败，容器启动终止"
    else create_or_start k
  else create_or_start k.

Definition _build_and_start_finally (k : Closure) : Py σ unit :=
  let pid := k_pid k in
  let project := k_project k in
  st ← DOCKER_STATUS_get pid;
  if bool_decide (st = Some "starting") then
    DOCKER_STATUS_set pid "stopped";;
    thread_logger WARNING project "容器启动超时或异常终止"
  else mret tt.

Definition _build_and_start (k : Closure) : Py σ unit :=
  try_finally (_build_and_start_try k) (_build_and_start_finally k).

Definition start_docker (pid : string) : Py σ Response :=
  project ← get_project_by_pid pid;
  working_dir ← gets (λ w, WORKING_DIR (config w));
  match project with
  | None => mret (jsonify false (Some "项目不存在") None 404)
  | Some project =>
      let image_name := docker_image project in
      let container_name := docker_name project in
      let '(host_port, container_port) := parse_ports project in
      cpu_count ← gets (λ w, default 1%Z (CPU_COUNT (config w)));
      mem_limit ← gets (λ w, default "1g" (MEM_LIMIT (config w)));
      memswap_limit ← gets (λ w, default "1.5g" (MEMSWAP_LIMIT (config w)));
      pids_limit ← gets (λ w, default 8%Z (PIDS_LIMIT (config w)));
      if negb (truthy_int host_port) || negb (truthy_int container_port) then
        logger ERROR "启动容器失败，端口未配置";;
        mret (jsonify false (Some "未配置项目端口或容器端口，无法启动") None 400)
      else
        st ← DOCKER_STATUS_get pid;
        if bool_decide (st = Some "starting") then
          mret (jsonify true (Some "启动中") (Some "starting") 202)
        else
          image_exists ← _docker_image_exists image_name;
          container_exists ← _docker_container_exists container_name;
          Thread_start
            {| k_pid := pid; k_project := project;
               k_working_dir := working_dir;
               k_image_name := image_name;
               k_container_name := container_name;
               k_host_port := host_port;
               k_container_port := container_port;
               k_CPU_COUNT := cpu_count; k_MEM_LIMIT := mem_limit;
               k_MEMSWAP_LIMIT := memswap_limit;
               k_PIDS_LIMIT := pids_limit;
               k_image_exists := image_exists;
               k_container_exists := container_exists |};;
          mret (jsonify true (Some "启动已开始") (Some "starting") 202)
  end.

Definition stop_docker (pid : string) : Py σ Response :=
  project ← get_project_by_pid pid;
  match project with
  | None => mret (jsonify false (Some "项目不存在") None 404)
  | Some project =>
      let container_name := docker_name project in
      exists_ ← _docker_container_exists container_name;
      if negb exists_ then
        logger WARNING "停止容器失败，容器不存在";;
        mret (jsonify false (Some "容器不存在") None 404)
      else
        stopped ← _docker_stop_container container_name;
        if negb stopped then
          logger ERROR "停止容器失败";;
          mret (jsonify false (Some "停止容器失败") None 500)
        else
          DOCKER_STATUS_set pid "stopped";;
          logger INFO "容器已停止";;
          mret (jsonify true (Some "容器已停止") (Some "stopped") 200)
  end.

Definition remove_docker (pid : string) : Py σ Response :=
  project ← get_project_by_pid pid;
  match project with
  | None => mret (jsonify false (Some "项目不存在") None 404)
  | Some project =>
      let container_name := docker_name project in
      exists_ ← _docker_container_exists container_name;
      if negb exists_ then
        logger WARNING "删除容器失败，容器不存在";;
        mret (jsonify false (Some "容器不存在") None 404)
      else
        removed ← _docker_remove_container container_name;
        if negb removed then
          logger ERROR "删除容器失败";;
          mret (jsonify false (Some "删除容器失败") None 500)
        else
          DOCKER_STATUS_pop pid;;
          logger INFO "容器已删除";;
          mret (jsonify true (Some "容器已删除") (Some "stopped") 200)
  end.

(** The fallback of [project_docker_status] when the store has no usable
    entry: what the daemon says about the project's container. *)
Definition reconcile (project : Project) : Py σ Response :=
  let container_name := docker_name project in
  exists_ ← _docker_container_exists container_name;
  if exists_ : bool then
    st ← _docker_container_status container_name;
    let mapped := if String.eqb st "running" then "running" else "stopped" in
    mret (jsonify true None (Some mapped) 200)
  else
    mret (jsonify true None (Some "stopped") 200).

Definition project_docker_status (pid : string) : Py σ Response :=
  project ← get_project_by_pid pid;
  match project with
  | None => mret (jsonify false (Some "项目不存在") None 404)
  | Some project =>
      status ← DOCKER_STATUS_get pid;
      if truthy_str status then
        mret (jsonify true None status 200)
      else
        reconcile project
  end.

(** ** Requests and the scheduler *)

(** The worker at position [i] of the pending threads runs to its end. An
    exception that leaves [_build_and_start] ends the thread and reaches
    no caller. *)
Definition run_thread (i : nat) (w : World σ) : World σ :=
  match threads w !! i with
  | None => w
  | Some k => exec (_build_and_start k) (set_threads (delete i (threads w)) w)
  end.

Inductive Event :=
| POST_start (pid : string)
| POST_stop (pid : string)
| POST_remove (pid : string)
| GET_status (pid : string)
| Scheduled (i : nat).

(** One event: the reply of a request (if any) and the new state. *)
Definition step (ev : Event) (w : World σ) : option (outcome Response) * World σ :=
  match ev with
  | POST_start pid => (Some (result (start_docker pid) w), exec (start_docker pid) w)
  | POST_stop pid => (Some (result (stop_docker pid) w), exec (stop_docker pid) w)
  | POST_remove pid => (Some (result (remove_docker pid) w), exec (remove_docker pid) w)
  | GET_status pid =>
      (Some (result (project_docker_status pid) w), exec (project_docker_status pid) w)
  | Scheduled i => (None, run_thread i w)
  end.

(** A run: the replies in order, and the final state. *)
Fixpoint run (evs : list Event) (w : World σ) : list (outcome Response) * World σ :=
  match evs with
  | [] => ([], w)
  | ev :: evs' =>
      let s1 := step ev w in
      let s2 := run evs' s1.2 in
      (match s1.1 with Some r => r :: s2.1 | None => s2.1 end, s2.2)
  end.

(** ** Closed forms used to state what the wrappers compute *)

(** Did the SDK call answer rather than raise? *)
Definition ok {A} (r : pyexn + A) : bool :=
  match r with inr _ => true | inl _ => false end.

(** [path or os.getcwd()]. *)
Definition build_path_of (path : option string) (w : World σ) : string :=
  if truthy_str path then default (cwd w) path else cwd w.

Definition run_args_of (image_name container_name : string)
    (host_port container_port : option Z) (cpu_count : Z)
    (mem_limit memswap_limit : string) (pids_limit : Z) : RunArgs :=
  {| r_image := image_name; r_name := container_name;
     r_container_port := container_port; r_host_port := host_port;
     r_cpu_count := cpu_count; r_mem_limit := mem_limit;
     r_memswap_limit := memswap_limit; r_pids_limit := pids_limit |}.

(** [containers.get] followed by a method of the container object. *)
Definition get_then (container_name : string) (mk : Container → Call)
    (op : Container → σ → (pyexn + unit) * σ) (w : World σ) :
    outcome bool * World σ :=
  match docker_client w with
  | None => (Ret false, w)
  | Some s =>
      let g := eng_containers_get container_name s in
      let w1 := after_call (CContainersGet container_name) g.2 w in
      match g.1 with
      | inl _ => (Ret false, w1)
      | inr c => (Ret (ok (op c g.2).1), after_call (mk c) (op c g.2).2 w1)
      end
  end.

(** The wrapper changed nothing but the daemon and the record of calls. *)
Definition daemon_only (w w' : World σ) : Prop :=
  DOCKER_STATUS w' = DOCKER_STATUS w ∧ projects w' = projects w ∧
  config w' = config w ∧ cwd w' = cwd w ∧ threads w' = threads w ∧
  faults w' = faults w ∧
  (is_Some (docker_client w') ↔ is_Some (docker_client w)).

(** The lifecycle states of the spec. *)
Definition lifecycle (s : string) : Prop :=
  s = "stopped" ∨ s = "starting" ∨ s = "running".

Definition store_valid (w : World σ) : Prop :=
  ∀ pid s, DOCKER_STATUS w !! pid = Some s → lifecycle s.

(** [m] always returns, and only daemon state differs afterwards. *)
Definition returns {A} (m : Py σ A) : Prop :=
  ∀ w, ∃ a, m w = (Ret a, exec m w) ∧ daemon_only w (exec m w).

(** [I] is kept by [m], whether [m] returns or raises. *)
Definition always {A} (I : World σ → Prop) (m : Py σ A) : Prop :=
  ∀ w, I w → I (exec m w).

(** The store holds a lifecycle state for [pid]. *)
Definition tracked (pid : string) (m : gmap string string) : Prop :=
  ∃ s, m !! pid = Some s ∧ lifecycle s.

End Operations.

(** ** An in-memory daemon

    A small Docker daemon used to run the handlers on concrete states. *)

Record Sim := {
  sim_up : bool;                         (* the daemon answers at all *)
  sim_images : list string;              (* tags present *)
  sim_build_ok : bool;                   (* builds succeed *)
  sim_containers : gmap string string;   (* container name to raw status *)
  sim_refuse : bool;                     (* start, stop and remove are refused *)
}.

Definition sim_handle (name st : string) : Container :=
  {| c_name := name; c_id := "id-" +:+ name; c_short_id := name; c_status := st |}.

Definition sim_set_images (l : list string) (s : Sim) : Sim :=
  {| sim_up := sim_up s; sim_images := l; sim_build_ok := sim_build_ok s;
     sim_containers := sim_containers s; sim_refuse := sim_refuse s |}.

Definition sim_set_containers (m : gmap string string) (s : Sim) : Sim :=
  {| sim_up := sim_up s; sim_images := sim_images s; sim_build_ok := sim_build_ok s;
     sim_containers := m; sim_refuse := sim_refuse s |}.

Definition sim_images_get (name : string) (s : Sim) : (pyexn + unit) * Sim :=
  if negb (sim_up s) then (inl ConnectionError, s)
  else if bool_decide (name ∈ sim_images s) then (inr tt, s)
  else (inl ImageNotFound, s).

Definition sim_images_build (path tag : string) (s : Sim) : (pyexn + unit) * Sim :=
  if negb (sim_up s) then (inl ConnectionError, s)
  else if sim_build_ok s then (inr tt, sim_set_images (tag :: sim_images s) s)
  else (inl BuildError, s).

Definition sim_containers_get (name : string) (s : Sim) : (pyexn + Container) * Sim :=
  if negb (sim_up s) then (inl ConnectionError, s)
  else match sim_containers s !! name with
       | Some st => (inr (sim_handle name st), s)
       | None => (inl NotFound, s)
       end.

Definition sim_containers_run (a : RunArgs) (s : Sim) : (pyexn + Container) * Sim :=
  if negb (sim_up s) then (inl ConnectionError, s)
  else if negb (bool_decide (r_image a ∈ sim_images s)) then (inl ImageNotFound, s)
  else match sim_containers s !! r_name a with
       | Some _ => (inl APIError, s)   (* the name is taken *)
       | None =>
           (inr (sim_handle (r_name a) "created"),
            sim_set_containers (<[r_name a := "running"]> (sim_containers s)) s)
       end.

(** [start], [stop] and [remove] of a container object. *)
Definition sim_change (f : gmap string string → gmap string string)
    (c : Container) (s : Sim) : (pyexn + unit) * Sim :=
  if negb (sim_up s) then (inl ConnectionError, s)
  else if sim_refuse s then (inl APIError, s)
  else match sim_containers s !! c_name c with
       | Some _ => (inr tt, sim_set_containers (f (sim_containers s)) s)
       | None => (inl NotFound, s)
       end.

#[global] Instance Sim_engine : Engine Sim := {
  eng_images_get := sim_images_get;
  eng_images_build := sim_images_build;
  eng_containers_get := sim_containers_get;
  eng_containers_run := sim_containers_run;
  eng_start c := sim_change (<[c_name c := "running"]>) c;
  eng_stop c := sim_change (<[c_name c := "exited"]>) c;
  eng_remove c force := sim_change (delete (c_name c)) c;
}.

(** The project of the spec's scenario: image [img:v1], host port 20001,
    container port 8080. *)
Definition P : Project :=
  {| pid := "P"; pname := "demo"; docker_name := "c-P"; docker_image := "img:v1";
     port := PyInt 20001; docker_port := PyInt 8080 |}.

(** A project whose host port was never set. *)
Definition Q : Project :=
  {| pid := "Q"; pname := "draft"; docker_name := "c-Q"; docker_image := "img:v1";
     port := PyNone; docker_port := PyInt 8080 |}.

Definition the_config : Config :=
  {| WORKING_DIR := Some "/srv/uniweb"; CPU_COUNT := Some 1%Z; MEM_LIMIT := Some "1g";
     MEMSWAP_LIMIT := Some "1.5g"; PIDS_LIMIT := Some 8%Z |}.

Definition fresh_daemon : Sim :=
  {| sim_up := true; sim_images := []; sim_build_ok := true;
     sim_containers := ∅; sim_refuse := false |}.

(** A process: its client, its store, and nothing pending. *)
Definition boot (client : option Sim) (store : gmap string string) : World Sim :=
  {| docker_client := client; DOCKER_STATUS := store;
     projects := <["P" := P]> (<["Q" := Q]> ∅);
     config := the_config; cwd := "/srv/uniweb";
     calls := []; threads := []; faults := [] |}.

Definition world0 : World Sim := boot (Some fresh_daemon) ∅.

(** A start of [P], respectively [Q], is in flight. *)
Definition world_P_starting : World Sim :=
  boot (Some fresh_daemon) {["P" := "starting"]}.
Definition world_Q_starting : World Sim :=
  boot (Some fresh_daemon) {["Q" := "starting"]}.

(** The daemon answers, holds the running container of [P], and refuses to
    change it. *)
Definition refusing_daemon : Sim :=
  {| sim_up := true; sim_images := ["img:v1"]; sim_build_ok := true;
     sim_containers := {["c-P" := "running"]}; sim_refuse := true |}.

(** The daemon cannot be reached. *)
Definition down_daemon : Sim :=
  {| sim_up := false; sim_images := []; sim_build_ok := true;
     sim_containers := ∅; sim_refuse := false |}.

Definition world_refusing : World Sim := boot (Some refusing_daemon) ∅.
Definition world_down : World Sim := boot (Some down_daemon) ∅.

(** [docker.from_env()] failed when the process started. *)
Definition world_no_client : World Sim := boot None ∅.

(** The calls of a trace that build an image or create a container. *)
Definition build_or_run (c : Call) : bool :=
  match c with
  | CImagesBuild _ _ | CContainersRun _ => true
  | _ => false
  end.

(** ** The rest of [utils/docker_client.py] *)

(** An [Image] object of the SDK: [short_id], [tags], and the entries
    [Size] and [Created] of [attrs], either of which may be missing. *)
Record Image := {
  i_short_id : string;
  i_tags : list string;
  i_Size : option Z;
  i_Created : option string;
}.

(** [images.list()] of the daemon. *)
Class ImageStore (σ : Type) := {
  eng_images_list : σ → (pyexn + list Image) * σ;
}.

Section ListImages.
Context {σ : Type} `{!Engine σ, !ImageStore σ}.

(** The size in MB is a float, [round(size / (1024 * 1024), 2)]; the type
    of floats and this function are left open. *)
Variable float : Type.
Variable size_mb : Z → float.

(** The dictionary built for one image. *)
Record ImageInfo := {
  info_id : string;
  info_name : string;
  info_tags : list string;
  info_size : float;
  info_created : string;
}.

(** [docker_client.images.list()]; the trace [calls] keeps the lifecycle
    operations only. *)
Definition images_list : Py σ (list Image) :=
  λ w, match docker_client w with
       | None => (Raise AttributeError, w)
       | Some s =>
           (of_sdk (eng_images_list s).1,
            set_docker_client (Some (eng_images_list s).2) w)
       end.

(** One turn of the loop [for img in images: ... result.append({...})]. *)
Definition list_images_append (result : list ImageInfo) (img : Image) :
    list ImageInfo :=
  let tags := if bool_decide (i_tags img ≠ []) then i_tags img else [] in
  let name := match tags with
              | t :: _ => t
              | [] => "<none>:" +:+ i_short_id img
              end in
  let size_mb := size_mb (default 0%Z (i_Size img)) in
  result ++ [{| info_id := i_short_id img; info_name := name; info_tags := tags;
                info_size := size_mb;
                info_created := default "" (i_Created img) |}].

Definition _docker_list_images : Py σ (list ImageInfo) :=
  client ← gets docker_client;
  if negb (bool_decide (is_Some client)) then
    logger WARNING "Docker client 未初始化，无法获取镜像列表";;
    mret []
  else
    try_except
      (images ← images_list;
       let result := fold_left list_images_append images [] in
       logger DEBUG "获取到镜像";;
       mret result)
      [(Exception, λ _, logger ERROR "获取镜像列表失败";; mret [])].

End ListImages.

(** [str.rstrip('/')]: the trailing slashes are dropped. *)
Fixpoint rstrip_slash (s : string) : string :=
  match s with
  | EmptyString => EmptyString
  | String c rest =>
      let rest' := rstrip_slash rest in
      (* 47 is the code of the slash *)
      if Ascii.eqb c (Ascii.ascii_of_nat 47) && String.eqb rest' EmptyString
      then EmptyString
      else String c rest'
  end.

(** The slash, and a run of [n] slashes. *)
Definition slash : string := String (Ascii.ascii_of_nat 47) EmptyString.

Fixpoint slashes (n : nat) : string :=
  match n with
  | O => EmptyString
  | S n' => slash +:+ slashes n'
  end.

(** A member of a tar archive, as [tarfile.TarInfo] describes it, with its
    content. The archive is kept as the list of its members, not as bytes. *)
Record TarInfo := {
  ti_name : string;
  ti_size : nat;
  ti_mode : N;
}.

Record TarMember := {
  tm_info : TarInfo;
  tm_data : string;
}.

(** The result of [container.exec_run]. *)
Record ExecResult := {
  exit_code : Z;
  output : string;
}.

(** The two methods of a container object that the upload uses. *)
Class ContainerFiles (σ : Type) := {
  eng_exec_run : Container → string → string → σ → (pyexn + ExecResult) * σ;
  eng_put_archive : Container → string → list TarMember → σ → (pyexn + bool) * σ;
}.

Section Upload.
Context {σ : Type} `{!ContainerFiles σ}.

(** [str(e)] of an exception. *)
Variable exn_str : pyexn → string.

(** A log statement outside of the handlers' state. *)
Definition note (l : level) (msg : string) : unit := tt.

(** [_upload_to_container]: the file goes into a one-member archive, the
    target directory is created (failures of that are logged and ignored),
    and the archive is put into the container. The daemon state is
    threaded through the two calls. *)
Definition _upload_to_container (container : Container) (file_data : string)
    (target_path filename : string) (s : σ) : (bool * string) * σ :=
  let tarinfo := {| ti_name := filename; ti_size := String.length file_data;
                    ti_mode := 420%N |} in   (* 0o644 *)
  let tar_stream := [{| tm_info := tarinfo; tm_data := file_data |}] in
  let mkdir := eng_exec_run container ("mkdir -p " +:+ target_path) "root" s in
  let _ := match mkdir.1 with
           | inr exec_result =>
               if negb (exit_code exec_result =? 0)%Z
               then note WARNING "创建目录失败" else tt
           | inl _ => note WARNING "创建目录时出错"
           end in
  let put := eng_put_archive container target_path tar_stream mkdir.2 in
  match put.1 with
  | inr success =>
      if success : bool then
        let full_path := rstrip_slash target_path +:+ "/" +:+ filename in
        ((true, "文件已成功上传到 " +:+ full_path), put.2)
      else ((false, "文件上传失败"), put.2)
  | inl e => ((false, "上传文件到容器时发生错误: " +:+ exn_str e), put.2)
  end.

End Upload.

(** ** The decorator [group_required_pid] of [blueprints/project.py] *)

(** [current_user]: Flask-Login's anonymous user, which is not
    authenticated and has no attribute [gid], or a row of [User], which is
    authenticated ([UserMixin]) and whose [gid] is a string or null. *)
Inductive CurrentUser :=
| AnonymousUser
| LoggedIn (gid : option string).

Definition is_authenticated (u : CurrentUser) : bool :=
  match u with
  | AnonymousUser => false
  | LoggedIn _ => true
  end.

(** [str(x)] for an [Optional[str]]. *)
Definition str_of_optional (o : option string) : string :=
  match o with
  | Some s => s
  | None => "None"
  end.

Section Decorator.
Context {σ : Type} `{!Engine σ}.

(** The column [gid] of a project row, which [Project] does not carry. *)
Variable project_gid : Project → string.

(** [current_user.gid]: raises on the anonymous user. *)
Definition current_user_gid (current_user : CurrentUser) : Py σ (option string) :=
  match current_user with
  | AnonymousUser => λ w, (Raise AttributeError, w)
  | LoggedIn gid => mret gid
  end.

(** [abort(code)] ends the request with that status: [inl code]. Otherwise
    the view runs and its reply is returned: [inr]. The list given to
    [any] is built in full, element by element, before [any] looks at it. *)
Definition group_required_pid (current_user : CurrentUser)
    (func : string → Py σ Response) (pid : string) : Py σ (nat + Response) :=
  project ← get_project_by_pid pid;
  match project with
  | None => mret (inl 404)
  | Some project =>
      let not_authenticated := negb (is_authenticated current_user) in
      gid ← current_user_gid current_user;
      let no_gid := negb (truthy_str gid) in
      gid' ← current_user_gid current_user;
      let other_gid :=
        negb (String.eqb (str_of_optional gid') (project_gid project)) in
      if existsb id [not_authenticated; no_gid; other_gid]
      then mret (inl 403)
      else r ← func pid; mret (inr r)
  end.

End Decorator.

(** ** Which operations reach the daemon *)

Section Calls.
Context {σ : Type}.

(** [m] only adds calls that [allowed] admits to the trace. *)
Definition sends {A} (allowed : Call → bool) (m : Py σ A) : Prop :=
  ∀ w, ∃ l, calls (exec m w) = calls w ++ l ∧ forallb allowed l = true.

End Calls.

Definition query_call (c : Call) : bool :=
  match c with
  | CImagesGet _ | CContainersGet _ => true
  | _ => false
  end.

Definition stop_call (c : Call) : bool :=
  match c with
  | CContainersGet _ | CStop _ => true
  | _ => false
  end.

Definition remove_call (c : Call) : bool :=
  match c with
  | CContainersGet _ | CRemove _ true => true
  | _ => false
  end.

Definition status_call (c : Call) : bool :=
  match c with
  | CContainersGet _ => true
  | _ => false
  end.

Definition worker_call (c : Call) : bool :=
  match c with
  | CImagesBuild _ _ | CContainersRun _ | CContainersGet _ | CStart _ => true
  | _ => false
  end.

(** The in-memory daemon lists one image per tag it holds. *)
#[global] Instance Sim_images : ImageStore Sim := {
  eng_images_list s :=
    if negb (sim_up s) then (inl ConnectionError, s)
    else (inr (map (λ t, {| i_short_id := "sha256:" +:+ t; i_tags := [t];
                            i_Size := Some 1048576%Z; i_Created := None |})
                 (sim_images s)), s);
}.

(** Files of the in-memory daemon's containers are not kept: a directory
    can be made and an archive put into any container that exists. *)
#[global] Instance Sim_files : ContainerFiles Sim := {
  eng_exec_run c cmd user s :=
    if negb (sim_up s) then (inl ConnectionError, s)
    else match sim_containers s !! c_name c with
         | Some _ => (inr {| exit_code := if sim_refuse s then 1 else 0;
                             output := "" |}, s)
         | None => (inl NotFound, s)
         end;
  eng_put_archive c path tar s :=
    if negb (sim_up s) then (inl ConnectionError, s)
    else match sim_containers s !! c_name c with
         | Some _ => (inr true, s)
         | None => (inl NotFound, s)
         end;
}.

(** The container of [P] runs and the store says so. *)
Definition running_daemon : Sim :=
  {| sim_up := true; sim_images := ["img:v1"]; sim_build_ok := true;
     sim_containers := {["c-P" := "running"]}; sim_refuse := false |}.

Definition world_P_running : World Sim :=
  boot (Some running_daemon) {["P" := "running"]}.

(** A worker for [P] as a start request on [world0] creates it. *)
Definition worker_P : Closure :=
  {| k_pid := "P"; k_project := P; k_working_dir := Some "/srv/uniweb";
     k_image_name := "img:v1"; k_container_name := "c-P";
     k_host_port := Some 20001%Z; k_container_port := Some 8080%Z;
     k_CPU_COUNT := 1; k_MEM_LIMIT := "1g"; k_MEMSWAP_LIMIT := "1.5g";
     k_PIDS_LIMIT := 8; k_image_exists := false; k_container_exists := false |}.

(** Every project is in group [g1]. *)
Definition all_in_g1 (project : Project) : string := "g1".

(** A member of group [g1] and a member of another group. *)
Definition member : CurrentUser := LoggedIn (Some "g1").
Definition outsider : CurrentUser := LoggedIn (Some "g2").

(** The state in which the worker of a second start request of [P] is
    still pending while the worker of the first has run. *)
Definition world_stale : World Sim :=
  (run [POST_start "P"; POST_start "P"; Scheduled 0] world0).2.

(** ** Properties *)

Section Properties.
Context {σ : Type} `{!Engine σ}.
Implicit Types (w : World σ) (k : Closure) (p : Project).

(** *** The wrappers in closed form *)

Ltac py_unfold :=
  unfold mbind, mret, Py_bind, Py_ret, py_bind, py_ret, gets, modify, logger,
    try_except, images_get, images_build, containers_get, containers_run,
    container_start, container_stop, container_remove, sdk_call, of_sdk in *.

Ltac eng_destruct :=
  match goal with
  | |- context [eng_images_get ?a ?s] =>
      destruct (eng_images_get a s) as [[?|[]] ?] eqn:?
  | |- context [eng_images_build ?a ?b ?s] =>
      destruct (eng_images_build a b s) as [[?|[]] ?] eqn:?
  | |- context [eng_containers_get ?a ?s] =>
      destruct (eng_containers_get a s) as [[?|?] ?] eqn:?
  | |- context [eng_containers_run ?a ?s] =>
      destruct (eng_containers_run a s) as [[?|?] ?] eqn:?
  | |- context [eng_start ?a ?s] =>
      destruct (eng_start a s) as [[?|[]] ?] eqn:?
  | |- context [eng_stop ?a ?s] =>
      destruct (eng_stop a s) as [[?|[]] ?] eqn:?
  | |- context [eng_remove ?a ?b ?s] =>
      destruct (eng_remove a b s) as [[?|[]] ?] eqn:?
  end.

Ltac wrapper_step :=
  simpl;
  match goal with
  | H : docker_client ?w = _ |- context [docker_client ?w] => rewrite H
  | H : ?x = (_, _) |- context [?x] => rewrite H
  | |- context [docker_client ?w] => destruct (docker_client w) eqn:?
  | _ => eng_destruct
  end.

Ltac wrapper_eq :=
  py_unfold; unfold after_call, set_calls, set_docker_client;
  repeat wrapper_step; simpl;
  repeat match goal with e : pyexn |- _ => destruct e end; simpl; try done.

Lemma _docker_image_exists_eq image_name w :
  _docker_image_exists image_name w =
  match docker_client w with
  | None => (Ret false, w)
  | Some s =>
      (Ret (ok (eng_images_get image_name s).1),
       after_call (CImagesGet image_name) (eng_images_get image_name s).2 w)
  end.
Proof. unfold _docker_image_exists. wrapper_eq. Qed.

Lemma _docker_container_exists_eq container_name w :
  _docker_container_exists container_name w =
  match docker_client w with
  | None => (Ret false, w)
  | Some s =>
      (Ret (ok (eng_containers_get container_name s).1),
       after_call (CContainersGet container_name)
         (eng_containers_get container_name s).2 w)
  end.
Proof. unfold _docker_container_exists. wrapper_eq. Qed.

Lemma _docker_container_status_eq container_name w :
  _docker_container_status container_name w =
  match docker_client w with
  | None => (Ret "stopped", w)
  | Some s =>
      (Ret match (eng_containers_get container_name s).1 with
           | inr c => if String.eqb (c_status c) "running" then "running" else "stopped"
           | inl _ => "stopped"
           end,
       after_call (CContainersGet container_name)
         (eng_containers_get container_name s).2 w)
  end.
Proof.
  unfold _docker_container_status. wrapper_eq.
  all: destruct (String.eqb _ _); done.
Qed.

Lemma _docker_build_image_eq image_name path w :
  _docker_build_image image_name path w =
  match docker_client w with
  | None => (Ret false, w)
  | Some s =>
      let b := eng_images_build (build_path_of path w) image_name s in
      (Ret (ok b.1), after_call (CImagesBuild (build_path_of path w) image_name) b.2 w)
  end.
Proof. unfold _docker_build_image, build_path_of. wrapper_eq. Qed.

Lemma _docker_run_container_eq image_name container_name host_port
    container_port cpu_count mem_limit memswap_limit pids_limit w :
  _docker_run_container image_name container_name host_port container_port
    cpu_count mem_limit memswap_limit pids_limit w =
  match docker_client w with
  | None => (Ret "", w)
  | Some s =>
      let a := run_args_of image_name container_name host_port container_port
                 cpu_count mem_limit memswap_limit pids_limit in
      (Ret match (eng_containers_run a s).1 with
           | inr c => c_id c
           | inl _ => ""
           end,
       after_call (CContainersRun a) (eng_containers_run a s).2 w)
  end.
Proof. unfold _docker_run_container, run_args_of. wrapper_eq. Qed.

Lemma _docker_start_container_eq container_name w :
  _docker_start_container container_name w =
  get_then container_name CStart eng_start w.
Proof. unfold _docker_start_container, get_then. wrapper_eq. Qed.

Lemma _docker_stop_container_eq container_name w :
  _docker_stop_container container_name w =
  get_then container_name CStop eng_stop w.
Proof. unfold _docker_stop_container, get_then. wrapper_eq. Qed.

Lemma _docker_remove_container_eq container_name w :
  _docker_remove_container container_name w =
  get_then container_name (λ c, CRemove c true) (λ c, eng_remove c true) w.
Proof. unfold _docker_remove_container, get_then. wrapper_eq. Qed.

(** *** The wrappers return and touch only the daemon *)

Lemma daemon_only_refl w : daemon_only w w.
Proof. by repeat split. Qed.

Lemma daemon_only_trans w1 w2 w3 :
  daemon_only w1 w2 → daemon_only w2 w3 → daemon_only w1 w3.
Proof.
  unfold daemon_only.
  intros (-> & -> & -> & -> & -> & -> & H1) (-> & -> & -> & -> & -> & -> & H2).
  repeat split; try done; intros ?; [apply H1, H2 | apply H2, H1]; done.
Qed.

Lemma daemon_only_after_call c s s' w :
  docker_client w = Some s → daemon_only w (after_call c s' w).
Proof. intros Hc. unfold daemon_only; simpl. rewrite Hc. repeat split; eauto. Qed.

Ltac returns_tac :=
  intros w; unfold exec;
  destruct (docker_client w) as [s|] eqn:Hc; simpl;
  [| eexists; split; [done | apply daemon_only_refl]];
  repeat match goal with
         | |- context [match ?x with inl _ => _ | inr _ => _ end] =>
             destruct x eqn:?; simpl
         end;
  eexists; (split; [done |]);
  eauto using daemon_only_after_call, daemon_only_trans.

Lemma _docker_image_exists_returns image_name :
  returns (_docker_image_exists image_name).
Proof.
  intros w. unfold exec. rewrite _docker_image_exists_eq.
  revert w. returns_tac.
Qed.

Lemma _docker_container_exists_returns container_name :
  returns (_docker_container_exists container_name).
Proof.
  intros w. unfold exec. rewrite _docker_container_exists_eq.
  revert w. returns_tac.
Qed.

Lemma _docker_container_status_returns container_name :
  returns (_docker_container_status container_name).
Proof.
  intros w. unfold exec. rewrite _docker_container_status_eq.
  revert w. returns_tac.
Qed.

Lemma _docker_build_image_returns image_name path :
  returns (_docker_build_image image_name path).
Proof.
  intros w. unfold exec. rewrite _docker_build_image_eq.
  revert w. returns_tac.
Qed.

Lemma _docker_run_container_returns i n hp cp cpu mem swap pids :
  returns (_docker_run_container i n hp cp cpu mem swap pids).
Proof.
  intros w. unfold exec. rewrite _docker_run_container_eq.
  revert w. returns_tac.
Qed.

Lemma get_then_returns container_name mk op w :
  ∃ b, get_then container_name mk op w = (Ret b, (get_then container_name mk op w).2) ∧
       daemon_only w (get_then container_name mk op w).2.
Proof.
  unfold get_then.
  destruct (docker_client w) as [s|] eqn:Hc; simpl;
    [| eexists; split; [done | apply daemon_only_refl]].
  destruct (eng_containers_get container_name s) as [[e|c] s1]; simpl;
    (eexists; split; [done |]).
  - by eapply daemon_only_after_call.
  - eapply daemon_only_trans; [by eapply daemon_only_after_call |].
    by eapply daemon_only_after_call.
Qed.

Lemma _docker_start_container_returns container_name :
  returns (_docker_start_container container_name).
Proof.
  intros w. unfold exec. rewrite _docker_start_container_eq.
  apply get_then_returns.
Qed.

Lemma _docker_stop_container_returns container_name :
  returns (_docker_stop_container container_name).
Proof.
  intros w. unfold exec. rewrite _docker_stop_container_eq.
  apply get_then_returns.
Qed.

Lemma _docker_remove_container_returns container_name :
  returns (_docker_remove_container container_name).
Proof.
  intros w. unfold exec. rewrite _docker_remove_container_eq.
  apply get_then_returns.
Qed.

(** *** Invariants of the store *)

Lemma always_ret {A} (I : World σ → Prop) (a : A) : always I (mret a : Py σ A).
Proof. by intros w. Qed.

Lemma always_bind {A B} (I : World σ → Prop) (m : Py σ A) (f : A → Py σ B) :
  always I m → (∀ a, always I (f a)) → always I (m ≫= f).
Proof.
  intros Hm Hf w HI. specialize (Hm w HI). unfold exec in *.
  unfold mbind, Py_bind, py_bind. destruct (m w) as [[a|e] w']; simpl in *.
  - by apply Hf.
  - done.
Qed.

Lemma always_if {A} (I : World σ → Prop) (b : bool) (m1 m2 : Py σ A) :
  always I m1 → always I m2 → always I (if b then m1 else m2).
Proof. by destruct b. Qed.

Lemma always_gets {A} (I : World σ → Prop) (f : World σ → A) : always I (gets f).
Proof. by intros w. Qed.

Lemma always_try_finally {A} (I : World σ → Prop) (body : Py σ A) fin :
  always I body → always I fin → always I (try_finally body fin).
Proof.
  intros Hb Hf w HI. specialize (Hb w HI). unfold exec, try_finally in *.
  destruct (body w) as [r w1]; simpl in *. specialize (Hf w1 Hb).
  unfold exec in Hf.
  destruct (fin w1) as [[[]|e] w2]; simpl in *; done.
Qed.

Section store_invariant.
Variable Q : gmap string string → Prop.
Hypothesis Q_insert : ∀ pid v m, lifecycle v → Q m → Q (<[pid:=v]> m).
Hypothesis Q_delete : ∀ pid m, Q m → Q (delete pid m).

Let I (w : World σ) : Prop := Q (DOCKER_STATUS w).

Lemma always_returns {A} (m : Py σ A) : returns m → always I m.
Proof using Type.
  intros Hm w HI. destruct (Hm w) as (a & _ & Hd).
  unfold I. by rewrite (proj1 Hd).
Qed.

Lemma always_logger l msg : always I (logger l msg).
Proof using Type. by intros w. Qed.

Lemma always_thread_logger l p msg : always I (thread_logger l p msg).
Proof using Type.
  intros w HI. unfold exec, thread_logger, thread_pname, mbind, Py_bind, py_bind.
  by destruct (faults w) as [|[] fs].
Qed.

Lemma always_DOCKER_STATUS_set pid v :
  lifecycle v → always I (DOCKER_STATUS_set pid v).
Proof using Q_insert. intros Hv w HI. by apply Q_insert. Qed.

Lemma always_DOCKER_STATUS_get pid : always I (DOCKER_STATUS_get pid).
Proof using Type. by intros w. Qed.

Lemma always_DOCKER_STATUS_pop pid : always I (DOCKER_STATUS_pop pid).
Proof using Q_delete. intros w HI. by apply Q_delete. Qed.

Lemma always_Thread_start k : always I (Thread_start k).
Proof using Type. by intros w. Qed.

Lemma lifecycle_stopped : lifecycle "stopped".
Proof using Type. by left. Qed.
Lemma lifecycle_starting : lifecycle "starting".
Proof using Type. by right; left. Qed.
Lemma lifecycle_running : lifecycle "running".
Proof using Type. by right; right. Qed.

Ltac always_tac :=
  repeat first
    [ apply always_ret
    | apply always_thread_logger
    | apply always_logger
    | apply always_DOCKER_STATUS_get
    | apply always_DOCKER_STATUS_pop
    | apply always_Thread_start
    | apply always_gets
    | apply always_DOCKER_STATUS_set;
        first [apply lifecycle_stopped | apply lifecycle_starting | apply lifecycle_running]
    | apply always_returns;
        first [ apply _docker_image_exists_returns
              | apply _docker_container_exists_returns
              | apply _docker_container_status_returns
              | apply _docker_build_image_returns
              | apply _docker_run_container_returns
              | apply _docker_start_container_returns
              | apply _docker_stop_container_returns
              | apply _docker_remove_container_returns ]
    | apply always_if
    | apply always_bind; [| intros ?]
    | apply always_try_finally ].

Lemma always_create_or_start k : always I (create_or_start k).
Proof using Q_insert. unfold create_or_start. always_tac. Qed.

Lemma always_build_and_start_try k : always I (_build_and_start_try k).
Proof using Q_insert.
  unfold _build_and_start_try. always_tac; apply always_create_or_start.
Qed.

Lemma always_build_and_start_finally k : always I (_build_and_start_finally k).
Proof using Q_insert. unfold _build_and_start_finally. always_tac. Qed.

Lemma always_build_and_start k : always I (_build_and_start k).
Proof using Q_insert.
  apply always_try_finally;
    [apply always_build_and_start_try | apply always_build_and_start_finally].
Qed.

Lemma always_start_docker pid : always I (start_docker pid).
Proof using Type.
  unfold start_docker, get_project_by_pid.
  apply always_bind; [apply always_gets | intros [p|]]; always_tac.
  destruct (parse_ports p). always_tac.
Qed.

Lemma always_stop_docker pid : always I (stop_docker pid).
Proof using Q_insert.
  unfold stop_docker, get_project_by_pid.
  apply always_bind; [apply always_gets | intros [p|]]; always_tac.
Qed.

Lemma always_remove_docker pid : always I (remove_docker pid).
Proof using Q_delete.
  unfold remove_docker, get_project_by_pid.
  apply always_bind; [apply always_gets | intros [p|]]; always_tac.
Qed.

Lemma always_project_docker_status pid : always I (project_docker_status pid).
Proof using Type.
  unfold project_docker_status, reconcile, get_project_by_pid.
  apply always_bind; [apply always_gets | intros [p|]]; always_tac.
Qed.

Lemma always_step ev w : I w → I (step ev w).2.
Proof using Q_insert Q_delete.
  intros HI. destruct ev as [pid|pid|pid|pid|i]; simpl.
  - by apply always_start_docker.
  - by apply always_stop_docker.
  - by apply always_remove_docker.
  - by apply always_project_docker_status.
  - unfold run_thread. destruct (threads w !! i) as [k|]; [| done].
    by apply always_build_and_start.
Qed.

Lemma always_run evs w : I w → I (run evs w).2.
Proof using Q_insert Q_delete.
  revert w. induction evs as [|ev evs IH]; intros w HI; simpl; [done |].
  by apply IH, always_step.
Qed.

End store_invariant.

(** Every request and every worker keeps the store within the lifecycle
    states. *)
Lemma run_store_valid evs w : store_valid w → store_valid (run evs w).2.
Proof.
  intros Hvalid.
  refine (always_run (λ m, ∀ pid s, m !! pid = Some s → lifecycle s) _ _ evs w Hvalid).
  - intros pid v m Hl Hm pid' s. destruct (decide (pid = pid')) as [->|Hne].
    + rewrite lookup_insert_eq. by intros [= <-].
    + rewrite lookup_insert_ne by done. apply Hm.
  - intros pid m Hm pid' s. destruct (decide (pid = pid')) as [->|Hne].
    + by rewrite lookup_delete_eq.
    + rewrite lookup_delete_ne by done. apply Hm.
Qed.

(** *** The worker thread *)

Lemma bind_eq {A B} (m : Py σ A) (f : A → Py σ B) w :
  (m ≫= f) w = match m w with
               | (Ret a, w') => f a w'
               | (Raise e, w') => (Raise e, w')
               end.
Proof. done. Qed.


Lemma exec_of {A} (m : Py σ A) w r w' : m w = (r, w') → exec m w = w'.
Proof. unfold exec. by intros ->. Qed.

Lemma exec_try_finally {A} (body : Py σ A) fin w :
  exec (try_finally body fin) w = exec fin (exec body w).
Proof.
  unfold exec, try_finally. destruct (body w) as [r w1]; simpl.
  by destruct (fin w1) as [[[]|e] w2].
Qed.

Lemma thread_logger_quiet l p msg w :
  faults w = [] → thread_logger l p msg w = (Ret tt, w).
Proof.
  intros Hf. unfold thread_logger, thread_pname. by rewrite bind_eq, Hf.
Qed.

Lemma returns_eq {A} (m : Py σ A) w :
  returns m →
  ∃ a, m w = (Ret a, exec m w) ∧ result m w = Ret a ∧
       faults (exec m w) = faults w ∧
       DOCKER_STATUS (exec m w) = DOCKER_STATUS w.
Proof.
  intros Hm. destruct (Hm w) as (a & Heq & Hd). exists a.
  split; [done |]. split; [unfold result; by rewrite Heq |].
  by destruct Hd as (? & ? & ? & ? & ? & ? & ?).
Qed.

Lemma tracked_insert pid0 pid v (m : gmap string string) :
  lifecycle v → tracked pid0 m → tracked pid0 (<[pid:=v]> m).
Proof.
  intros Hv (s & Hs & Hl). unfold tracked.
  destruct (decide (pid = pid0)) as [->|Hne].
  - exists v. by rewrite lookup_insert_eq.
  - exists s. by rewrite lookup_insert_ne.
Qed.

(** What the [finally] block does to the entry of the project. *)
Lemma finally_status k w :
  DOCKER_STATUS (exec (_build_and_start_finally k) w) !! k_pid k =
  if bool_decide (DOCKER_STATUS w !! k_pid k = Some "starting")
  then Some "stopped" else DOCKER_STATUS w !! k_pid k.
Proof.
  unfold exec, _build_and_start_finally, DOCKER_STATUS_get, DOCKER_STATUS_set.
  rewrite bind_eq. simpl. case_bool_decide; [| done].
  rewrite bind_eq. simpl.
  unfold thread_logger, thread_pname. rewrite bind_eq. simpl.
  destruct (faults w) as [|[] fs]; simpl; by rewrite lookup_insert_eq.
Qed.

(** The [try] block writes [starting] first, and afterwards only
    lifecycle states: the project has an entry when the block is left. *)
Lemma try_tracked k w :
  tracked (k_pid k) (DOCKER_STATUS (exec (_build_and_start_try k) w)).
Proof.
  pose proof (always_build_and_start_try (tracked (k_pid k))
                (tracked_insert (k_pid k)) k) as Hinv.
  assert (exec (_build_and_start_try k) w =
          exec (_build_and_start_try k)
            (exec (DOCKER_STATUS_set (k_pid k) "starting") w)) as ->.
  { unfold exec at 1 2, _build_and_start_try, DOCKER_STATUS_set at 1 3.
    rewrite !bind_eq. unfold exec, modify. simpl.
    by rewrite insert_insert_eq. }
  apply Hinv. exists "starting". split; [apply lookup_insert_eq |].
  by right; left.
Qed.

(** The [finally] block does its work after any [try] block at all. *)
Lemma finally_guards (body : Py σ unit) k w :
  DOCKER_STATUS (exec (try_finally body (_build_and_start_finally k)) w) !! k_pid k
  ≠ Some "starting".
Proof.
  rewrite exec_try_finally, finally_status.
  case_bool_decide as Hst; [done | exact Hst].
Qed.

(** C1. Whatever way the worker leaves its [try] block (a [return] after a
    build, run or start failure or success, or an exception raised at any
    of its statements), the [finally] block turns an entry that still reads
    [starting] into [stopped]; once the worker has ended the entry of the
    project is never [starting]: it is [stopped] or [running]. The guard
    does not depend on what the [try] block is. *)
Theorem no_orphaned_starting k w :
  let w1 := exec (_build_and_start_try k) w in
  let w2 := exec (_build_and_start k) w in
  (DOCKER_STATUS w1 !! k_pid k = Some "starting" →
   DOCKER_STATUS w2 !! k_pid k = Some "stopped") ∧
  DOCKER_STATUS w2 !! k_pid k ≠ Some "starting" ∧
  (DOCKER_STATUS w2 !! k_pid k = Some "stopped" ∨
   DOCKER_STATUS w2 !! k_pid k = Some "running") ∧
  (∀ body : Py σ unit,
     DOCKER_STATUS (exec (try_finally body (_build_and_start_finally k)) w)
       !! k_pid k ≠ Some "starting").
Proof.
  intros w1 w2. unfold w2, _build_and_start.
  rewrite exec_try_finally, finally_status. fold w1.
  destruct (try_tracked k w) as (s & Hs & Hl). fold w1 in Hs.
  rewrite Hs. case_bool_decide as Hst.
  - split; [done |]. split; [done |]. split; [by left |].
    intros body. apply finally_guards.
  - split; [done |]. split; [done |].
    split; [| intros body; apply finally_guards].
    destruct Hl as [-> | [-> | ->]]; [by left | done | by right].
Qed.

Lemma finally_noop k w :
  DOCKER_STATUS w !! k_pid k ≠ Some "starting" →
  _build_and_start_finally k w = (Ret tt, w).
Proof.
  intros Hne. unfold _build_and_start_finally, DOCKER_STATUS_get.
  rewrite bind_eq. simpl. by case_bool_decide.
Qed.

Lemma create_or_start_absent k w :
  faults w = [] → k_container_exists k = false →
  let run_ := _docker_run_container (k_image_name k) (k_container_name k)
                (k_host_port k) (k_container_port k) (k_CPU_COUNT k)
                (k_MEM_LIMIT k) (k_MEMSWAP_LIMIT k) (k_PIDS_LIMIT k) in
  ∃ container_id,
    result run_ w = Ret container_id ∧
    create_or_start k w =
      (Ret tt, exec (DOCKER_STATUS_set (k_pid k)
                       (if String.eqb container_id "" then "stopped" else "running"))
                 (exec run_ w)).
Proof.
  intros Hf Hce run_.
  destruct (returns_eq run_ w (_docker_run_container_returns _ _ _ _ _ _ _ _))
    as (cid & Heq & Hr & Hfa & _).
  unfold create_or_start. fold run_. rewrite Hce. simpl.
  rewrite bind_eq, thread_logger_quiet by done.
  rewrite bind_eq.
  exists cid. split; [done |]. rewrite Heq.
  destruct (String.eqb cid ""); simpl;
    rewrite bind_eq; simpl; rewrite thread_logger_quiet; try done;
    simpl; congruence.
Qed.

Lemma create_or_start_present k w :
  faults w = [] → k_container_exists k = true →
  let start := _docker_start_container (k_container_name k) in
  ∃ started,
    result start w = Ret started ∧
    create_or_start k w =
      (Ret tt, exec (DOCKER_STATUS_set (k_pid k)
                       (if started : bool then "running" else "stopped"))
                 (exec start w)).
Proof.
  intros Hf Hce start.
  destruct (returns_eq start w (_docker_start_container_returns _))
    as (b & Heq & Hr & Hfa & _).
  unfold create_or_start. fold start. rewrite Hce. simpl.
  rewrite bind_eq, thread_logger_quiet by done.
  rewrite bind_eq.
  exists b. split; [done |]. rewrite Heq.
  destruct b; simpl;
    rewrite bind_eq; simpl; rewrite thread_logger_quiet; try done;
    simpl; congruence.
Qed.

(** The [try] block when no statement raises. *)
Lemma build_and_start_try_eq k w :
  faults w = [] →
  let w0 := exec (DOCKER_STATUS_set (k_pid k) "starting") w in
  let build := _docker_build_image (k_image_name k) (k_working_dir k) in
  _build_and_start_try k w =
  if k_image_exists k then create_or_start k w0
  else match result build w0 with
       | Ret true => create_or_start k (exec build w0)
       | _ => (Ret tt, exec (DOCKER_STATUS_set (k_pid k) "stopped") (exec build w0))
       end.
Proof.
  intros Hf w0 build.
  destruct (returns_eq build w0 (_docker_build_image_returns _ _))
    as (b & Heq & Hr & Hfa & _).
  unfold _build_and_start_try.
  rewrite bind_eq. simpl.
  change (set_DOCKER_STATUS _ w) with w0.
  rewrite bind_eq, thread_logger_quiet by done.
  destruct (k_image_exists k); simpl; [done |].
  rewrite bind_eq, thread_logger_quiet by done.
  fold build.
  rewrite bind_eq, Heq, Hr. destruct b; simpl; [done |].
  rewrite bind_eq. simpl. rewrite thread_logger_quiet; [done |].
  simpl. by rewrite Hfa.
Qed.

Lemma thread_logger_cases l p msg w :
  thread_logger l p msg w = (Ret tt, w) ∨
  ∃ fs, (thread_logger l p msg w = (Ret tt, set_faults fs w) ∨
         thread_logger l p msg w = (Raise DetachedInstanceError, set_faults fs w)).
Proof.
  unfold thread_logger, thread_pname. rewrite bind_eq.
  destruct (faults w) as [|[] fs]; simpl; eauto.
Qed.

(** With no client the worker can only end in [stopped], whatever was
    captured and whichever statement raises. *)
Lemma worker_without_client k w :
  docker_client w = None →
  DOCKER_STATUS (exec (_build_and_start k) w) !! k_pid k = Some "stopped".
Proof.
  intros Hc. unfold _build_and_start. rewrite exec_try_finally, finally_status.
  unfold exec, _build_and_start_try, create_or_start, DOCKER_STATUS_set, modify.
  repeat match goal with
  | |- context [thread_logger ?l ?p ?m ?w'] =>
      destruct (thread_logger_cases l p m w') as [-> | (? & [-> | ->])]; simpl
  | |- context [mbind ?f ?m ?w1] => rewrite (bind_eq m f w1); simpl
  | |- context [k_image_exists k] => destruct (k_image_exists k); simpl
  | |- context [k_container_exists k] => destruct (k_container_exists k); simpl
  | |- context [_docker_build_image ?a ?b ?w'] =>
      rewrite (_docker_build_image_eq a b w'); simpl; rewrite ?Hc; simpl
  | |- context [_docker_run_container ?a ?b ?c ?d ?e ?f ?g ?h ?w'] =>
      rewrite (_docker_run_container_eq a b c d e f g h w'); simpl;
      rewrite ?Hc; simpl
  | |- context [_docker_start_container ?a ?w'] =>
      rewrite (_docker_start_container_eq a w'); unfold get_then; simpl;
      rewrite ?Hc; simpl
  end.
  all: rewrite !lookup_insert_eq; by case_bool_decide.
Qed.

(** *** The start request *)

Lemma ports_missing_not_configured p :
  truth (port p) = false ∨ as_int (port p) = None ∨
  truth (docker_port p) = false ∨ as_int (docker_port p) = None →
  ports_configured p = false.
Proof.
  unfold ports_configured, parse_ports, int_or_None.
  destruct (truth (port p)), (as_int (port p)),
    (truth (docker_port p)), (as_int (docker_port p)); simpl;
    intros [?|[?|[?|?]]]; try done; by rewrite ?andb_false_r.
Qed.

Lemma ports_configured_as_int p :
  ports_configured p = true →
  (parse_ports p).1 = as_int (port p) ∧ (parse_ports p).2 = as_int (docker_port p).
Proof.
  unfold ports_configured, parse_ports, int_or_None.
  destruct (truth (port p)), (as_int (port p)),
    (truth (docker_port p)), (as_int (docker_port p)); simpl; try done;
    by rewrite ?andb_false_r.
Qed.

Lemma start_docker_pre pid p w :
  projects w !! pid = Some p →
  start_docker pid w =
  if negb (ports_configured p) then
    (Ret (jsonify false (Some "未配置项目端口或容器端口，无法启动") None 400), w)
  else if bool_decide (DOCKER_STATUS w !! pid = Some "starting") then
    (Ret (jsonify true (Some "启动中") (Some "starting") 202), w)
  else
    (image_exists ← _docker_image_exists (docker_image p);
     container_exists ← _docker_container_exists (docker_name p);
     Thread_start
       {| k_pid := pid; k_project := p;
          k_working_dir := WORKING_DIR (config w);
          k_image_name := docker_image p;
          k_container_name := docker_name p;
          k_host_port := (parse_ports p).1;
          k_container_port := (parse_ports p).2;
          k_CPU_COUNT := default 1%Z (CPU_COUNT (config w));
          k_MEM_LIMIT := default "1g" (MEM_LIMIT (config w));
          k_MEMSWAP_LIMIT := default "1.5g" (MEMSWAP_LIMIT (config w));
          k_PIDS_LIMIT := default 8%Z (PIDS_LIMIT (config w));
          k_image_exists := image_exists;
          k_container_exists := container_exists |};;
     mret (jsonify true (Some "启动已开始") (Some "starting") 202)) w.
Proof.
  intros Hp. unfold start_docker, get_project_by_pid, ports_configured.
  rewrite bind_eq. simpl. rewrite Hp. rewrite bind_eq. simpl.
  destruct (parse_ports p) as [hp cp]. simpl.
  do 4 (rewrite bind_eq; simpl).
  rewrite negb_andb.
  destruct (negb (truthy_int hp) || negb (truthy_int cp)); simpl; [done |].
  unfold DOCKER_STATUS_get. rewrite bind_eq. simpl.
  by destruct (bool_decide (DOCKER_STATUS w !! pid = Some "starting")).
Qed.

(** C8. A project whose host port or container port is null or cannot be
    converted is refused at once with the configuration error (400); the
    state after the request is the state before it: no store entry is
    written, no thread is started, the daemon is not asked anything. *)
Theorem start_rejects_missing_port pid p w :
  projects w !! pid = Some p →
  truth (port p) = false ∨ as_int (port p) = None ∨
  truth (docker_port p) = false ∨ as_int (docker_port p) = None →
  start_docker pid w =
  (Ret (jsonify false (Some "未配置项目端口或容器端口，无法启动") None 400), w).
Proof.
  intros Hp Hmiss. rewrite (start_docker_pre pid p w Hp).
  by rewrite (ports_missing_not_configured p Hmiss).
Qed.

(** C2 (amended). For a project whose ports are both configured and whose
    entry reads [starting], the start request answers at once with state
    [starting] (202) and leaves the state as it was: no thread is started,
    no entry is written, nothing is raised. *)
Theorem start_dedup_when_configured pid p w :
  projects w !! pid = Some p →
  ports_configured p = true →
  DOCKER_STATUS w !! pid = Some "starting" →
  start_docker pid w =
  (Ret (jsonify true (Some "启动中") (Some "starting") 202), w).
Proof.
  intros Hp Hports Hst. rewrite (start_docker_pre pid p w Hp), Hports. simpl.
  by rewrite bool_decide_eq_true_2.
Qed.

Lemma finally_after_set k v w :
  v ≠ "starting" →
  exec (_build_and_start_finally k) (exec (DOCKER_STATUS_set (k_pid k) v) w) =
  exec (DOCKER_STATUS_set (k_pid k) v) w.
Proof.
  intros Hv. unfold exec at 1. rewrite finally_noop; [done |].
  unfold exec, DOCKER_STATUS_set, modify. simpl. rewrite lookup_insert_eq. congruence.
Qed.

Lemma build_calls image_name path w :
  let w' := exec (_docker_build_image image_name path) w in
  calls w' = calls w ∨
  calls w' = calls w ++ [CImagesBuild (build_path_of path w) image_name].
Proof.
  unfold exec. rewrite _docker_build_image_eq.
  destruct (docker_client w); simpl; auto.
Qed.

(** C4 (amended). An accepted start request itself asks the daemon whether
    the image and the container exist, before it starts the worker, and
    hands both answers to the worker. The worker, in whatever state it is
    scheduled, acts on these answers when none of its statements raises:
    it builds the image if it was reported absent and,
    if the build fails, writes [stopped] and ends, having sent the daemon
    nothing but the build; otherwise, if the container was reported absent
    it calls run with the ports of the project and the configured limits
    and writes [running] when an id comes back and [stopped] when none
    does; if the container was reported present it calls start and writes
    [running] on success and [stopped] on failure. *)
Theorem start_sequence pid p w :
  projects w !! pid = Some p →
  ports_configured p = true →
  DOCKER_STATUS w !! pid ≠ Some "starting" →
  let q1 := _docker_image_exists (docker_image p) in
  let q2 := _docker_container_exists (docker_name p) in
  let wq := exec q2 (exec q1 w) in
  let build := _docker_build_image (docker_image p) (WORKING_DIR (config w)) in
  let run_ := _docker_run_container (docker_image p) (docker_name p)
                (as_int (port p)) (as_int (docker_port p))
                (default 1%Z (CPU_COUNT (config w)))
                (default "1g" (MEM_LIMIT (config w)))
                (default "1.5g" (MEMSWAP_LIMIT (config w)))
                (default 8%Z (PIDS_LIMIT (config w))) in
  let start := _docker_start_container (docker_name p) in
  ∃ k,
    start_docker pid w =
      (Ret (jsonify true (Some "启动已开始") (Some "starting") 202),
       set_threads (threads wq ++ [k]) wq) ∧
    k_pid k = pid ∧
    result q1 w = Ret (k_image_exists k) ∧
    result q2 (exec q1 w) = Ret (k_container_exists k) ∧
    ∀ w', faults w' = [] →
      let w0 := exec (DOCKER_STATUS_set pid "starting") w' in
      let final := exec (_build_and_start k) w' in
      (k_image_exists k = false → result build w0 = Ret false →
       final = exec (DOCKER_STATUS_set pid "stopped") (exec build w0) ∧
       (calls final = calls w' ∨
        calls final = calls w' ++
          [CImagesBuild (build_path_of (WORKING_DIR (config w)) w') (docker_image p)])) ∧
      ∀ w1,
        (k_image_exists k = true ∧ w1 = w0) ∨
        (k_image_exists k = false ∧ result build w0 = Ret true ∧ w1 = exec build w0) →
        (k_container_exists k = false →
         ∃ container_id,
           result run_ w1 = Ret container_id ∧
           final = exec (DOCKER_STATUS_set pid
                           (if String.eqb container_id "" then "stopped" else "running"))
                     (exec run_ w1)) ∧
        (k_container_exists k = true →
         ∃ started,
           result start w1 = Ret started ∧
           final = exec (DOCKER_STATUS_set pid
                           (if started : bool then "running" else "stopped"))
                     (exec start w1)).
Proof.
  intros Hp Hports Hst q1 q2 wq build run_ start.
  destruct (ports_configured_as_int p Hports) as [Hhp Hcp].
  rewrite (start_docker_pre pid p w Hp), Hports. simpl.
  rewrite bool_decide_eq_false_2 by done.
  destruct (returns_eq q1 w (_docker_image_exists_returns _)) as (ie & Hie & Hr1 & _).
  destruct (returns_eq q2 (exec q1 w) (_docker_container_exists_returns _))
    as (ce & Hce & Hr2 & _).
  rewrite bind_eq. fold q1. rewrite Hie.
  rewrite bind_eq. fold q2. rewrite Hce.
  rewrite bind_eq. simpl. fold wq.
  eexists. split; [reflexivity |]. simpl.
  split; [done |]. split; [done |]. split; [done |].
  rewrite Hhp, Hcp.
  intros w' Hf. unfold _build_and_start.
  rewrite exec_try_finally. 
  match goal with |- context [exec (_build_and_start_try ?k) w'] =>
    replace (exec (_build_and_start_try k) w') with (_build_and_start_try k w').2
      by done;
    rewrite (build_and_start_try_eq k w' Hf) end. simpl.
  fold build. 
  split.
  - intros -> Hb. rewrite Hb. simpl.
    split.
    + apply (finally_after_set (Build_Closure pid _ _ _ _ _ _ _ _ _ _ _ _)). done.
    + rewrite (finally_after_set (Build_Closure pid _ _ _ _ _ _ _ _ _ _ _ _)) by done.
      simpl.
      apply (build_calls (docker_image p) (WORKING_DIR (config w))
               (exec (DOCKER_STATUS_set pid "starting") w')).
  - intros w1 Hw1.
    assert (faults w1 = []) as Hf1.
    { destruct Hw1 as [[_ ->] | (_ & _ & ->)]; [done |].
      destruct (returns_eq build (exec (DOCKER_STATUS_set pid "starting") w')
                  (_docker_build_image_returns _ _)) as (? & _ & _ & -> & _).
      done. }
    match goal with |- context [exec (_build_and_start_finally ?k0)] => set (k := k0) end.
    assert ((if ie then create_or_start k (exec (DOCKER_STATUS_set pid "starting") w')
             else match result build (exec (DOCKER_STATUS_set pid "starting") w') with
                  | Ret true => create_or_start k (exec build (exec (DOCKER_STATUS_set pid "starting") w'))
                  | _ => (Ret tt, exec (DOCKER_STATUS_set pid "stopped") (exec build (exec (DOCKER_STATUS_set pid "starting") w')))
                  end) = create_or_start k w1) as ->.
    { destruct Hw1 as [[-> ->] | (-> & -> & ->)]; done. }
    split.
    + intros Hce'.
      destruct (create_or_start_absent k w1 Hf1 Hce') as (cid & Hr & ->).
      exists cid. split; [done |]. simpl.
      apply (finally_after_set k). by destruct (String.eqb cid "").
    + intros Hce'.
      destruct (create_or_start_present k w1 Hf1 Hce') as (b & Hr & ->).
      exists b. split; [done |]. simpl.
      apply (finally_after_set k). by destruct b.
Qed.


(** *** Stop, remove and the status query *)

Lemma stop_docker_eq pid p w :
  projects w !! pid = Some p →
  let q := _docker_container_exists (docker_name p) in
  let stop := _docker_stop_container (docker_name p) in
  stop_docker pid w =
  match result q w with
  | Ret true =>
      match result stop (exec q w) with
      | Ret true =>
          (Ret (jsonify true (Some "容器已停止") (Some "stopped") 200),
           exec (DOCKER_STATUS_set pid "stopped") (exec stop (exec q w)))
      | _ => (Ret (jsonify false (Some "停止容器失败") None 500), exec stop (exec q w))
      end
  | _ => (Ret (jsonify false (Some "容器不存在") None 404), exec q w)
  end.
Proof.
  intros Hp q stop.
  destruct (returns_eq q w (_docker_container_exists_returns _)) as (b & Hq & Hr & _).
  destruct (returns_eq stop (exec q w) (_docker_stop_container_returns _))
    as (b' & Hs & Hr' & _).
  unfold stop_docker, get_project_by_pid. rewrite bind_eq. simpl. rewrite Hp.
  fold q stop. rewrite bind_eq, Hq, Hr. destruct b; simpl; [| done].
  rewrite bind_eq, Hs, Hr'. by destruct b'.
Qed.

Lemma remove_docker_eq pid p w :
  projects w !! pid = Some p →
  let q := _docker_container_exists (docker_name p) in
  let remove := _docker_remove_container (docker_name p) in
  remove_docker pid w =
  match result q w with
  | Ret true =>
      match result remove (exec q w) with
      | Ret true =>
          (Ret (jsonify true (Some "容器已删除") (Some "stopped") 200),
           exec (DOCKER_STATUS_pop pid) (exec remove (exec q w)))
      | _ => (Ret (jsonify false (Some "删除容器失败") None 500), exec remove (exec q w))
      end
  | _ => (Ret (jsonify false (Some "容器不存在") None 404), exec q w)
  end.
Proof.
  intros Hp q remove.
  destruct (returns_eq q w (_docker_container_exists_returns _)) as (b & Hq & Hr & _).
  destruct (returns_eq remove (exec q w) (_docker_remove_container_returns _))
    as (b' & Hs & Hr' & _).
  unfold remove_docker, get_project_by_pid. rewrite bind_eq. simpl. rewrite Hp.
  fold q remove. rewrite bind_eq, Hq, Hr. destruct b; simpl; [| done].
  rewrite bind_eq, Hs, Hr'. by destruct b'.
Qed.

Lemma project_docker_status_eq pid p w :
  projects w !! pid = Some p →
  project_docker_status pid w =
  if truthy_str (DOCKER_STATUS w !! pid)
  then (Ret (jsonify true None (DOCKER_STATUS w !! pid) 200), w)
  else reconcile p w.
Proof.
  intros Hp. unfold project_docker_status, get_project_by_pid, DOCKER_STATUS_get.
  rewrite bind_eq. simpl. rewrite Hp. rewrite bind_eq. simpl.
  by destruct (truthy_str (DOCKER_STATUS w !! pid)).
Qed.

Lemma lifecycle_truthy s : lifecycle s → truthy_str (Some s) = true.
Proof. by intros [-> | [-> | ->]]. Qed.

(** What the reconciler answers, in terms of the daemon. *)
Lemma reconcile_eq p w :
  ∃ st,
    result (reconcile p) w = Ret (jsonify true None (Some st) 200) ∧
    (st = "running" ∨ st = "stopped") ∧
    (st = "running" ↔
     ∃ s c1 c2,
       docker_client w = Some s ∧
       (eng_containers_get (docker_name p) s).1 = inr c1 ∧
       (eng_containers_get (docker_name p)
          (eng_containers_get (docker_name p) s).2).1 = inr c2 ∧
       c_status c2 = "running").
Proof.
  unfold result, reconcile. rewrite bind_eq, _docker_container_exists_eq.
  destruct (docker_client w) as [s|] eqn:Hc; simpl.
  2: { exists "stopped". split; [done |]. split; [by right |].
       split; [done | by intros (? & ? & ? & ? & _)]. }
  destruct (eng_containers_get (docker_name p) s) as [[e|c1] s1] eqn:Hg1; simpl.
  { exists "stopped". split; [done |]. split; [by right |].
    split; [done | by intros (? & ? & ? & [= <-] & Hx & _); rewrite Hg1 in Hx]. }
  rewrite bind_eq, _docker_container_status_eq. simpl.
  destruct (eng_containers_get (docker_name p) s1) as [[e|c2] s2] eqn:Hg2; simpl.
  { exists "stopped". split; [done |]. split; [by right |].
    split; [done |].
    intros (? & ? & ? & [= <-] & _ & Hx & _). rewrite Hg1 in Hx. simpl in Hx.
    by rewrite Hg2 in Hx. }
  destruct (String.eqb (c_status c2) "running") eqn:Hst; simpl.
  - exists "running". split; [done |]. split; [by left |].
    split; [intros _ | done].
    exists s, c1, c2. rewrite Hg1. simpl. rewrite Hg2. simpl.
    by apply String.eqb_eq in Hst.
  - exists "stopped". split; [done |]. split; [by right |].
    split; [done |].
    intros (? & ? & c & [= <-] & _ & Hx & Hy). rewrite Hg1 in Hx. simpl in Hx.
    rewrite Hg2 in Hx. simpl in Hx. injection Hx as <-.
    apply String.eqb_neq in Hst. done.
Qed.


(** C5. For a project with an entry in the store (a lifecycle state, as the
    store only ever holds) the status query returns that entry as it is
    and asks the daemon nothing; with no entry it answers [running] exactly
    when the daemon finds the project's container and reports it as
    running, and [stopped] otherwise. *)
Theorem status_query pid p w :
  projects w !! pid = Some p →
  store_valid w →
  (∀ s, DOCKER_STATUS w !! pid = Some s →
        project_docker_status pid w = (Ret (jsonify true None (Some s) 200), w)) ∧
  (DOCKER_STATUS w !! pid = None →
   ∃ st,
     result (project_docker_status pid) w = Ret (jsonify true None (Some st) 200) ∧
     (st = "running" ∨ st = "stopped") ∧
     (st = "running" ↔
      ∃ s c1 c2,
        docker_client w = Some s ∧
        (eng_containers_get (docker_name p) s).1 = inr c1 ∧
        (eng_containers_get (docker_name p)
           (eng_containers_get (docker_name p) s).2).1 = inr c2 ∧
        c_status c2 = "running")).
Proof.
  intros Hp Hvalid. split.
  - intros s Hs. rewrite (project_docker_status_eq pid p w Hp), Hs.
    by rewrite (lifecycle_truthy s (Hvalid pid s Hs)).
  - intros Hnone. unfold result.
    rewrite (project_docker_status_eq pid p w Hp), Hnone. simpl.
    apply reconcile_eq.
Qed.



(** The start request itself never writes the store. *)
Lemma start_docker_never_writes pid w :
  DOCKER_STATUS (exec (start_docker pid) w) = DOCKER_STATUS w.
Proof.
  destruct (projects w !! pid) as [p|] eqn:Hp.
  2: { unfold exec, start_docker, get_project_by_pid.
       rewrite bind_eq. simpl. by rewrite Hp. }
  unfold exec. rewrite (start_docker_pre pid p w Hp).
  destruct (negb (ports_configured p)); [done |].
  case_bool_decide; [done |].
  destruct (returns_eq _ w (_docker_image_exists_returns (docker_image p)))
    as (ie & Hie & _ & _ & Hs1).
  destruct (returns_eq _ (exec (_docker_image_exists (docker_image p)) w)
              (_docker_container_exists_returns (docker_name p)))
    as (ce & Hce & _ & _ & Hs2).
  rewrite bind_eq, Hie, bind_eq, Hce, bind_eq. simpl. by rewrite Hs2, Hs1.
Qed.

(** *** The wrappers and their failures *)

(** C9 (amended). A wrapper reports failure by one value ([False]; the
    empty string for run; [stopped] for the status): whenever the SDK call
    it makes raises, the result is that value whatever was raised, be it
    not-found, an API error or a connection error. *)
Theorem wrappers_collapse_failures w s e :
  docker_client w = Some s →
  (∀ n, (eng_images_get n s).1 = inl e →
        result (_docker_image_exists n) w = Ret false) ∧
  (∀ n path, (eng_images_build (build_path_of path w) n s).1 = inl e →
             result (_docker_build_image n path) w = Ret false) ∧
  (∀ i n hp cp cpu mem swap pids,
     (eng_containers_run (run_args_of i n hp cp cpu mem swap pids) s).1 = inl e →
     result (_docker_run_container i n hp cp cpu mem swap pids) w = Ret "") ∧
  (∀ n, (eng_containers_get n s).1 = inl e →
        result (_docker_container_exists n) w = Ret false ∧
        result (_docker_container_status n) w = Ret "stopped" ∧
        result (_docker_start_container n) w = Ret false ∧
        result (_docker_stop_container n) w = Ret false ∧
        result (_docker_remove_container n) w = Ret false) ∧
  (∀ n c, (eng_containers_get n s).1 = inr c →
          let s1 := (eng_containers_get n s).2 in
          ((eng_start c s1).1 = inl e →
           result (_docker_start_container n) w = Ret false) ∧
          ((eng_stop c s1).1 = inl e →
           result (_docker_stop_container n) w = Ret false) ∧
          ((eng_remove c true s1).1 = inl e →
           result (_docker_remove_container n) w = Ret false)).
Proof.
  intros Hc. unfold result. split_and!.
  - intros n He. by rewrite _docker_image_exists_eq, Hc, He.
  - intros n path He. rewrite _docker_build_image_eq, Hc. simpl. by rewrite He.
  - intros i n hp cp cpu mem swap pids He.
    rewrite _docker_run_container_eq, Hc. simpl. by rewrite He.
  - intros n He.
    rewrite _docker_container_exists_eq, _docker_container_status_eq,
      _docker_start_container_eq, _docker_stop_container_eq,
      _docker_remove_container_eq.
    unfold get_then. by rewrite Hc, He.
  - intros n c Hg.
    rewrite _docker_start_container_eq, _docker_stop_container_eq,
      _docker_remove_container_eq.
    unfold get_then. rewrite Hc, Hg. simpl.
    split_and!; by intros ->.
Qed.

(** C10. With a client that failed to initialise, every wrapper returns its
    failure value without raising and leaves the state alone: [False],
    the empty string for run, [stopped] for the status. Hence stop and
    remove reply not-found for every project, the status query answers
    [stopped] for a project without an entry, and every worker ends with
    the entry of its project at [stopped]. *)
Theorem no_client_defaults w :
  docker_client w = None →
  (∀ n, _docker_image_exists n w = (Ret false, w)) ∧
  (∀ n path, _docker_build_image n path w = (Ret false, w)) ∧
  (∀ n, _docker_container_exists n w = (Ret false, w)) ∧
  (∀ n, _docker_container_status n w = (Ret "stopped", w)) ∧
  (∀ i n hp cp cpu mem swap pids,
     _docker_run_container i n hp cp cpu mem swap pids w = (Ret "", w)) ∧
  (∀ n, _docker_start_container n w = (Ret false, w)) ∧
  (∀ n, _docker_stop_container n w = (Ret false, w)) ∧
  (∀ n, _docker_remove_container n w = (Ret false, w)) ∧
  (∀ pid p, projects w !! pid = Some p →
     stop_docker pid w = (Ret (jsonify false (Some "容器不存在") None 404), w) ∧
     remove_docker pid w = (Ret (jsonify false (Some "容器不存在") None 404), w) ∧
     (DOCKER_STATUS w !! pid = None →
      project_docker_status pid w =
        (Ret (jsonify true None (Some "stopped") 200), w))) ∧
  (∀ k, DOCKER_STATUS (exec (_build_and_start k) w) !! k_pid k = Some "stopped").
Proof.
  intros Hc.
  assert (∀ n, _docker_container_exists n w = (Ret false, w)) as Hex.
  { intros n. by rewrite _docker_container_exists_eq, Hc. }
  split; [intros n; by rewrite _docker_image_exists_eq, Hc |].
  split; [intros n path; by rewrite _docker_build_image_eq, Hc |].
  split; [done |].
  split; [intros n; by rewrite _docker_container_status_eq, Hc |].
  split; [intros; by rewrite _docker_run_container_eq, Hc |].
  split; [intros n; rewrite _docker_start_container_eq; unfold get_then;
          by rewrite Hc |].
  split; [intros n; rewrite _docker_stop_container_eq; unfold get_then;
          by rewrite Hc |].
  split; [intros n; rewrite _docker_remove_container_eq; unfold get_then;
          by rewrite Hc |].
  split; [| intros k; by apply worker_without_client].
  intros pid p Hp. split; [| split].
  - rewrite (stop_docker_eq pid p w Hp). cbv zeta. unfold result, exec.
    by rewrite Hex.
  - rewrite (remove_docker_eq pid p w Hp). cbv zeta. unfold result, exec.
    by rewrite Hex.
  - intros Hnone. rewrite (project_docker_status_eq pid p w Hp), Hnone. simpl.
    unfold reconcile. by rewrite bind_eq, Hex.
Qed.

End Properties.

(** ** Further properties of the handlers and of the other functions *)

Section Further.
Context {σ : Type} `{!Engine σ}.
Implicit Types (w : World σ) (k : Closure) (p : Project).

(** *** Which calls a computation sends *)

Lemma sends_ret {A} allowed (a : A) : sends allowed (mret a : Py σ A).
Proof. intros w. exists []. by rewrite app_nil_r. Qed.

Lemma sends_bind {A B} allowed (m : Py σ A) (f : A → Py σ B) :
  sends allowed m → (∀ a, sends allowed (f a)) → sends allowed (m ≫= f).
Proof.
  intros Hm Hf w. destruct (Hm w) as (l1 & Hl1 & Ha1). unfold exec in *.
  rewrite bind_eq. destruct (m w) as [[a|e] w1]; simpl in *.
  - destruct (Hf a w1) as (l2 & Hl2 & Ha2). unfold exec in Hl2.
    exists (l1 ++ l2). rewrite Hl2, Hl1, app_assoc. split; [done |].
    by rewrite forallb_app, Ha1, Ha2.
  - by exists l1.
Qed.

Lemma sends_if {A} allowed (b : bool) (m1 m2 : Py σ A) :
  sends allowed m1 → sends allowed m2 → sends allowed (if b then m1 else m2).
Proof. by destruct b. Qed.

Lemma sends_quiet {A} allowed (m : Py σ A) :
  (∀ w, calls (exec m w) = calls w) → sends allowed m.
Proof. intros Hm w. exists []. by rewrite Hm, app_nil_r. Qed.

Lemma sends_try_finally {A} allowed (body : Py σ A) fin :
  sends allowed body → sends allowed fin → sends allowed (try_finally body fin).
Proof.
  intros Hb Hf w. rewrite exec_try_finally.
  destruct (Hb w) as (l1 & Hl1 & Ha1).
  destruct (Hf (exec body w)) as (l2 & Hl2 & Ha2).
  exists (l1 ++ l2). rewrite Hl2, Hl1, app_assoc. split; [done |].
  by rewrite forallb_app, Ha1, Ha2.
Qed.

Lemma sends_thread_logger allowed l p msg :
  sends allowed (thread_logger l p msg : Py σ unit).
Proof.
  apply sends_quiet. intros w. unfold exec, thread_logger, thread_pname.
  rewrite bind_eq. by destruct (faults w) as [|[] fs].
Qed.

Lemma sends_image_exists allowed n :
  (∀ x, allowed (CImagesGet x) = true) → sends allowed (_docker_image_exists n).
Proof.
  intros Ha w. unfold exec. rewrite _docker_image_exists_eq.
  destruct (docker_client w); simpl.
  - eexists [_]. split; [done |]. simpl. by rewrite Ha.
  - exists []. by rewrite app_nil_r.
Qed.

Lemma sends_container_exists allowed n :
  (∀ x, allowed (CContainersGet x) = true) →
  sends allowed (_docker_container_exists n).
Proof.
  intros Ha w. unfold exec. rewrite _docker_container_exists_eq.
  destruct (docker_client w); simpl.
  - eexists [_]. split; [done |]. simpl. by rewrite Ha.
  - exists []. by rewrite app_nil_r.
Qed.

Lemma sends_container_status allowed n :
  (∀ x, allowed (CContainersGet x) = true) →
  sends allowed (_docker_container_status n).
Proof.
  intros Ha w. unfold exec. rewrite _docker_container_status_eq.
  destruct (docker_client w); simpl.
  - eexists [_]. split; [done |]. simpl. by rewrite Ha.
  - exists []. by rewrite app_nil_r.
Qed.

Lemma sends_build_image allowed n path :
  (∀ x y, allowed (CImagesBuild x y) = true) →
  sends allowed (_docker_build_image n path).
Proof.
  intros Ha w. unfold exec. rewrite _docker_build_image_eq.
  destruct (docker_client w); simpl.
  - eexists [_]. split; [done |]. simpl. by rewrite Ha.
  - exists []. by rewrite app_nil_r.
Qed.

Lemma sends_run_container allowed i n hp cp cpu mem swap pids :
  (∀ x, allowed (CContainersRun x) = true) →
  sends allowed (_docker_run_container i n hp cp cpu mem swap pids).
Proof.
  intros Ha w. unfold exec. rewrite _docker_run_container_eq.
  destruct (docker_client w); simpl.
  - eexists [_]. split; [done |]. simpl. by rewrite Ha.
  - exists []. by rewrite app_nil_r.
Qed.

Lemma sends_get_then allowed n mk op :
  (∀ x, allowed (CContainersGet x) = true) →
  (∀ c, allowed (mk c) = true) →
  ∀ w, ∃ l, calls (get_then n mk op w).2 = calls w ++ l ∧ forallb allowed l = true.
Proof.
  intros Hg Hm w. unfold get_then.
  destruct (docker_client w); simpl; [| exists []; by rewrite app_nil_r].
  destruct (eng_containers_get n σ0).1; simpl.
  - eexists [_]. split; [done |]. simpl. by rewrite Hg.
  - eexists [_; _]. rewrite <- app_assoc. split; [done |]. simpl.
    by rewrite Hg, Hm.
Qed.

Lemma sends_start_container allowed n :
  (∀ x, allowed (CContainersGet x) = true) →
  (∀ c, allowed (CStart c) = true) →
  sends allowed (_docker_start_container n).
Proof.
  intros Hg Hm w. unfold exec. rewrite _docker_start_container_eq.
  by apply sends_get_then.
Qed.

Lemma sends_stop_container allowed n :
  (∀ x, allowed (CContainersGet x) = true) →
  (∀ c, allowed (CStop c) = true) →
  sends allowed (_docker_stop_container n).
Proof.
  intros Hg Hm w. unfold exec. rewrite _docker_stop_container_eq.
  by apply sends_get_then.
Qed.

Lemma sends_remove_container allowed n :
  (∀ x, allowed (CContainersGet x) = true) →
  (∀ c, allowed (CRemove c true) = true) →
  sends allowed (_docker_remove_container n).
Proof.
  intros Hg Hm w. unfold exec. rewrite _docker_remove_container_eq.
  by apply (sends_get_then allowed n (λ c, CRemove c true)).
Qed.

Ltac sends_tac :=
  repeat first
    [ apply sends_ret
    | apply sends_thread_logger
    | apply sends_quiet; done
    | apply sends_image_exists; done
    | apply sends_container_exists; done
    | apply sends_container_status; done
    | apply sends_build_image; done
    | apply sends_run_container; done
    | apply sends_start_container; done
    | apply sends_stop_container; done
    | apply sends_remove_container; done
    | apply sends_if
    | apply sends_bind; [| intros ?]
    | apply sends_try_finally ].

(** X11. A request only asks the daemon what its handler is for: start asks
    whether the image and the container exist and never builds, creates or
    starts anything itself; stop only looks the container up and stops it;
    remove only looks it up and removes it, always forced; the status query
    only looks it up. *)
Theorem requests_send_only_their_calls pid :
  sends query_call (start_docker pid) ∧
  sends stop_call (stop_docker pid) ∧
  sends remove_call (remove_docker pid) ∧
  sends status_call (project_docker_status pid).
Proof.
  split_and!.
  - unfold start_docker, get_project_by_pid.
    apply sends_bind; [by apply sends_quiet | intros [p|]]; sends_tac.
    destruct (parse_ports p). sends_tac.
  - unfold stop_docker, get_project_by_pid.
    apply sends_bind; [by apply sends_quiet | intros [p|]]; sends_tac.
  - unfold remove_docker, get_project_by_pid.
    apply sends_bind; [by apply sends_quiet | intros [p|]]; sends_tac.
  - unfold project_docker_status, reconcile, get_project_by_pid.
    apply sends_bind; [by apply sends_quiet | intros [p|]]; sends_tac.
Qed.

(** X12. Whatever happens in it, the worker only builds an image, creates
    a container, looks one up or starts one: it never stops or removes a
    container. *)
Theorem worker_sends_only_its_calls k : sends worker_call (_build_and_start k).
Proof.
  unfold _build_and_start, _build_and_start_try, _build_and_start_finally,
    create_or_start.
  sends_tac.
Qed.
(** *** What the requests leave alone *)

(** X1. The start request itself never writes the status store, on any of
    its paths; it starts at most one worker, and that worker is for the
    project of the request. *)
Theorem start_request_only_spawns pid w :
  let w' := exec (start_docker pid) w in
  DOCKER_STATUS w' = DOCKER_STATUS w ∧
  (threads w' = threads w ∨ ∃ k, threads w' = threads w ++ [k] ∧ k_pid k = pid).
Proof.
  intros w'. subst w'. split; [apply start_docker_never_writes |].
  destruct (projects w !! pid) as [p|] eqn:Hp.
  2: { left. unfold exec, start_docker, get_project_by_pid.
       rewrite bind_eq. simpl. by rewrite Hp. }
  unfold exec. rewrite (start_docker_pre pid p w Hp).
  destruct (negb (ports_configured p)); [by left |].
  case_bool_decide; [by left |]. right.
  destruct (_docker_image_exists_returns (docker_image p) w)
    as (ie & Hie & Hd1).
  destruct (_docker_container_exists_returns (docker_name p)
              (exec (_docker_image_exists (docker_image p)) w))
    as (ce & Hce & Hd2).
  rewrite bind_eq, Hie, bind_eq, Hce, bind_eq. simpl.
  destruct Hd1 as (_ & _ & _ & _ & Ht1 & _).
  destruct Hd2 as (_ & _ & _ & _ & Ht2 & _).
  eexists. rewrite Ht2, Ht1. split; [done |]. done.
Qed.

(** X3. For a project identifier that is not in the table, start, stop,
    remove and the status query all reply 404 and leave the state as it
    was. *)
Theorem unknown_project_404 pid w :
  projects w !! pid = None →
  let not_found := jsonify false (Some "项目不存在") None 404 in
  start_docker pid w = (Ret not_found, w) ∧
  stop_docker pid w = (Ret not_found, w) ∧
  remove_docker pid w = (Ret not_found, w) ∧
  project_docker_status pid w = (Ret not_found, w).
Proof.
  intros Hp. unfold start_docker, stop_docker, remove_docker,
    project_docker_status, get_project_by_pid.
  split_and!; rewrite bind_eq; simpl; by rewrite Hp.
Qed.

Lemma worker_final_status k w :
  DOCKER_STATUS (exec (_build_and_start k) w) !! k_pid k = Some "stopped" ∨
  DOCKER_STATUS (exec (_build_and_start k) w) !! k_pid k = Some "running".
Proof.
  unfold _build_and_start. rewrite exec_try_finally, finally_status.
  destruct (try_tracked k w) as (s & Hs & Hl). rewrite Hs.
  case_bool_decide; [by left |].
  destruct Hl as [-> | [-> | ->]]; [by left | done | by right].
Qed.

(** X4. The four handlers always answer, whatever the daemon does: start
    with 202, 400 or 404; stop and remove with 200, 404 or 500; the status
    query with 200 or 404. No exception of the SDK reaches the caller. *)
Theorem requests_always_answer pid w :
  (∃ r, result (start_docker pid) w = Ret r ∧
        (code r = 202 ∨ code r = 400 ∨ code r = 404)) ∧
  (∃ r, result (stop_docker pid) w = Ret r ∧
        (code r = 200 ∨ code r = 404 ∨ code r = 500)) ∧
  (∃ r, result (remove_docker pid) w = Ret r ∧
        (code r = 200 ∨ code r = 404 ∨ code r = 500)) ∧
  (∃ r, result (project_docker_status pid) w = Ret r ∧
        (code r = 200 ∨ code r = 404)).
Proof.
  destruct (projects w !! pid) as [p|] eqn:Hp.
  2: { unfold result, start_docker, stop_docker, remove_docker,
         project_docker_status, get_project_by_pid.
       split_and!; rewrite bind_eq; simpl; rewrite Hp; eexists; (split; [done |]);
         simpl; auto. }
  split_and!.
  - unfold result. rewrite (start_docker_pre pid p w Hp).
    destruct (negb (ports_configured p)); [eexists; split; [done | simpl; auto] |].
    case_bool_decide; [eexists; split; [done | simpl; auto] |].
    destruct (_docker_image_exists_returns (docker_image p) w) as (ie & Hie & _).
    destruct (_docker_container_exists_returns (docker_name p)
                (exec (_docker_image_exists (docker_image p)) w))
      as (ce & Hce & _).
    rewrite bind_eq, Hie, bind_eq, Hce, bind_eq. simpl.
    eexists; split; [done | simpl; auto].
  - unfold result. rewrite (stop_docker_eq pid p w Hp). cbv zeta.
    destruct (result _ w) as [[]|]; try (eexists; split; [done | simpl; auto]).
    destruct (result _ _) as [[]|]; eexists; (split; [done | simpl; auto]).
  - unfold result. rewrite (remove_docker_eq pid p w Hp). cbv zeta.
    destruct (result _ w) as [[]|]; try (eexists; split; [done | simpl; auto]).
    destruct (result _ _) as [[]|]; eexists; (split; [done | simpl; auto]).
  - unfold result. rewrite (project_docker_status_eq pid p w Hp).
    destruct (truthy_str _); [eexists; split; [done | simpl; auto] |].
    destruct (reconcile_eq p w) as (st & Hst & _). unfold result in Hst.
    rewrite Hst. eexists; split; [done | simpl; auto].
Qed.
(** *** What a stop, a remove and a worker keep *)

Section kept.
Variable I : World σ → Prop.
Variable pid0 : string.
Hypothesis I_daemon : ∀ w w', daemon_only w w' → I w → I w'.
Hypothesis I_faults : ∀ fs w, I w → I (set_faults fs w).
Hypothesis I_set :
  ∀ v w, I w → I (set_DOCKER_STATUS (<[pid0:=v]> (DOCKER_STATUS w)) w).
Hypothesis I_pop :
  ∀ w, I w → I (set_DOCKER_STATUS (delete pid0 (DOCKER_STATUS w)) w).

Lemma kept_returns {A} (m : Py σ A) : returns m → always I m.
Proof using I_daemon.
  intros Hm w HI. destruct (Hm w) as (a & _ & Hd). by eapply I_daemon.
Qed.

Lemma kept_thread_logger l p msg : always I (thread_logger l p msg).
Proof using I_faults.
  intros w HI. unfold exec, thread_logger, thread_pname. rewrite bind_eq.
  destruct (faults w) as [|[] fs]; simpl; try done; by apply I_faults.
Qed.

Lemma kept_set v : always I (DOCKER_STATUS_set pid0 v).
Proof using I_set. intros w HI. by apply I_set. Qed.

Lemma kept_pop : always I (DOCKER_STATUS_pop pid0).
Proof using I_pop. intros w HI. by apply I_pop. Qed.

Lemma kept_quiet {A} (f : World σ → A) : always I (gets f).
Proof using Type. by intros w. Qed.

Ltac kept_tac :=
  repeat first
    [ apply always_ret
    | apply kept_thread_logger
    | apply kept_set
    | apply kept_pop
    | apply kept_quiet
    | apply kept_returns;
        first [ apply _docker_image_exists_returns
              | apply _docker_container_exists_returns
              | apply _docker_container_status_returns
              | apply _docker_build_image_returns
              | apply _docker_run_container_returns
              | apply _docker_start_container_returns
              | apply _docker_stop_container_returns
              | apply _docker_remove_container_returns ]
    | apply always_if
    | apply always_bind; [| intros ?]
    | apply always_try_finally ].

Lemma kept_by_worker k : k_pid k = pid0 → always I (_build_and_start k).
Proof using I_daemon I_faults I_set.
  intros Hk.
  unfold _build_and_start, _build_and_start_try, _build_and_start_finally,
    create_or_start, DOCKER_STATUS_get.
  rewrite Hk. kept_tac.
Qed.

Lemma kept_by_stop : always I (stop_docker pid0).
Proof using I_daemon I_set.
  unfold stop_docker, get_project_by_pid, logger.
  apply always_bind; [apply kept_quiet | intros [p|]]; kept_tac.
Qed.

Lemma kept_by_remove : always I (remove_docker pid0).
Proof using I_daemon I_pop.
  unfold remove_docker, get_project_by_pid, logger.
  apply always_bind; [apply kept_quiet | intros [p|]]; kept_tac.
Qed.

Lemma kept_by_status pid : always I (project_docker_status pid).
Proof using I_daemon.
  unfold project_docker_status, reconcile, get_project_by_pid, DOCKER_STATUS_get.
  apply always_bind; [apply kept_quiet | intros [p|]]; kept_tac.
Qed.

End kept.

(** X5. A stop or a remove of one project, and the worker of one project,
    leave the store entries of every other project as they were. *)
Theorem other_projects_untouched pid pid' w :
  pid ≠ pid' →
  DOCKER_STATUS (exec (stop_docker pid) w) !! pid' = DOCKER_STATUS w !! pid' ∧
  DOCKER_STATUS (exec (remove_docker pid) w) !! pid' = DOCKER_STATUS w !! pid' ∧
  ∀ k, k_pid k = pid →
       DOCKER_STATUS (exec (_build_and_start k) w) !! pid' = DOCKER_STATUS w !! pid'.
Proof.
  intros Hne.
  set (I := λ w0 : World σ, DOCKER_STATUS w0 !! pid' = DOCKER_STATUS w !! pid').
  assert (∀ w1 w2, daemon_only w1 w2 → I w1 → I w2) as Hd.
  { intros w1 w2 (Hs & _) HI. unfold I. by rewrite Hs. }
  assert (∀ v w1, I w1 → I (set_DOCKER_STATUS (<[pid:=v]> (DOCKER_STATUS w1)) w1))
    as Hset.
  { intros v w1 HI. unfold I. simpl. by rewrite lookup_insert_ne. }
  assert (∀ w1, I w1 → I (set_DOCKER_STATUS (delete pid (DOCKER_STATUS w1)) w1))
    as Hpop.
  { intros w1 HI. unfold I. simpl. by rewrite lookup_delete_ne. }
  split_and!.
  - by apply (kept_by_stop I pid Hd Hset).
  - by apply (kept_by_remove I pid Hd Hpop).
  - intros k Hk. by apply (kept_by_worker I pid Hd (λ _ _ H, H) Hset k Hk).
Qed.

(** X6. The status query only reads: apart from the daemon and the record
    of calls, the state after it is the state before it. A stop and a
    remove start no worker thread. *)
Theorem status_query_reads_only pid w :
  daemon_only w (exec (project_docker_status pid) w) ∧
  threads (exec (stop_docker pid) w) = threads w ∧
  threads (exec (remove_docker pid) w) = threads w.
Proof.
  split_and!.
  - apply (kept_by_status (daemon_only w));
      [| apply daemon_only_refl].
    intros w1 w2 H12 H1. by eapply daemon_only_trans.
  - apply (kept_by_stop (λ w0, threads w0 = threads w) pid); try done.
    intros w1 w2 (_ & _ & _ & _ & Ht & _) HI. by rewrite Ht.
  - apply (kept_by_remove (λ w0, threads w0 = threads w) pid); try done.
    intros w1 w2 (_ & _ & _ & _ & Ht & _) HI. by rewrite Ht.
Qed.

(** X7. After a stop that replied 200, the status query of that project
    answers [stopped] from the store and changes nothing, without asking
    the daemon. *)
Theorem stop_then_status pid p w r :
  projects w !! pid = Some p →
  result (stop_docker pid) w = Ret r →
  code r = 200 →
  let w' := exec (stop_docker pid) w in
  project_docker_status pid w' = (Ret (jsonify true None (Some "stopped") 200), w').
Proof.
  intros Hp Hr Hcode w'. subst w'.
  assert (projects (exec (stop_docker pid) w) = projects w) as Hproj.
  { apply (kept_by_stop (λ w0, projects w0 = projects w) pid); try done.
    intros w1 w2 (_ & Hpr & _) HI. by rewrite Hpr. }
  rewrite (project_docker_status_eq pid p); [| by rewrite Hproj].
  pose proof (stop_docker_eq pid p w Hp) as Heq. cbv zeta in Heq.
  unfold result in Hr. rewrite Heq in Hr. unfold exec at 1 2. rewrite Heq.
  destruct (result (_docker_container_exists (docker_name p)) w) as [[]|];
    simpl in *; try (injection Hr as <-; discriminate).
  destruct (result (_docker_stop_container (docker_name p)) _) as [[]|];
    simpl in *; try (injection Hr as <-; discriminate).
  by rewrite lookup_insert_eq.
Qed.

(** X8. Once a worker has ended, the store holds [stopped] or [running]
    for its project, and the status query of that project answers exactly
    that entry, without asking the daemon, whatever has become of the
    container. *)
Theorem worker_then_status k p w :
  projects w !! k_pid k = Some p →
  let w' := exec (_build_and_start k) w in
  ∃ s, (s = "stopped" ∨ s = "running") ∧
       DOCKER_STATUS w' !! k_pid k = Some s ∧
       project_docker_status (k_pid k) w' = (Ret (jsonify true None (Some s) 200), w').
Proof.
  intros Hp w'. subst w'.
  assert (projects (exec (_build_and_start k) w) = projects w) as Hproj.
  { apply (kept_by_worker (λ w0, projects w0 = projects w) (k_pid k)); try done.
    intros w1 w2 (_ & Hpr & _) HI. by rewrite Hpr. }
  rewrite (project_docker_status_eq (k_pid k) p); [| by rewrite Hproj].
  destruct (worker_final_status k w) as [Hs | Hs]; rewrite Hs; simpl; eauto.
Qed.

(** *** The store over a whole run, the wrappers, the port guard *)

(** X2. Over any sequence of requests and worker runs, every entry of the
    store stays one of [stopped], [starting] and [running]. *)
Theorem store_stays_within_lifecycle evs w pid s :
  store_valid w →
  DOCKER_STATUS (run evs w).2 !! pid = Some s →
  s = "stopped" ∨ s = "starting" ∨ s = "running".
Proof. intros Hvalid Hs. exact (run_store_valid evs w Hvalid pid s Hs). Qed.

(** X9. No wrapper of the runtime client ever raises: each returns a
    value, and nothing but the daemon and the record of calls differs
    afterwards (the store, the project table, the configuration and the
    pending threads are as before). *)
Theorem wrappers_never_raise :
  (∀ n, returns (_docker_image_exists n)) ∧
  (∀ n path, returns (_docker_build_image n path)) ∧
  (∀ n, returns (_docker_container_exists n)) ∧
  (∀ n, returns (_docker_container_status n)) ∧
  (∀ i n hp cp cpu mem swap pids,
     returns (_docker_run_container i n hp cp cpu mem swap pids)) ∧
  (∀ n, returns (_docker_start_container n)) ∧
  (∀ n, returns (_docker_stop_container n)) ∧
  (∀ n, returns (_docker_remove_container n)).
Proof.
  split_and!; intros.
  - apply _docker_image_exists_returns.
  - apply _docker_build_image_returns.
  - apply _docker_container_exists_returns.
  - apply _docker_container_status_returns.
  - apply _docker_run_container_returns.
  - apply _docker_start_container_returns.
  - apply _docker_stop_container_returns.
  - apply _docker_remove_container_returns.
Qed.

Lemma get_then_trace n mk op w s :
  docker_client w = Some s →
  let g := eng_containers_get n s in
  match g.1 with
  | inl _ =>
      get_then n mk op w = (Ret false, after_call (CContainersGet n) g.2 w) ∧
      calls (get_then n mk op w).2 = calls w ++ [CContainersGet n]
  | inr c =>
      (get_then n mk op w).1 = Ret (ok (op c g.2).1) ∧
      calls (get_then n mk op w).2 = calls w ++ [CContainersGet n; mk c]
  end.
Proof.
  intros Hc. unfold get_then. rewrite Hc. simpl.
  destruct (eng_containers_get n s).1; simpl; [done |].
  by rewrite <- app_assoc.
Qed.

(** X10. With a client, the start, stop and remove wrappers first look the
    container up. If the lookup raises they return [False] and send
    nothing else; if it answers they send the one operation on the very
    container object the lookup returned (the removal always forced) and
    return whether that operation answered. *)
Theorem wrappers_look_up_first n w s :
  docker_client w = Some s →
  let g := eng_containers_get n s in
  match g.1 with
  | inl _ =>
      result (_docker_start_container n) w = Ret false ∧
      calls (exec (_docker_start_container n) w) = calls w ++ [CContainersGet n] ∧
      result (_docker_stop_container n) w = Ret false ∧
      calls (exec (_docker_stop_container n) w) = calls w ++ [CContainersGet n] ∧
      result (_docker_remove_container n) w = Ret false ∧
      calls (exec (_docker_remove_container n) w) = calls w ++ [CContainersGet n]
  | inr c =>
      result (_docker_start_container n) w = Ret (ok (eng_start c g.2).1) ∧
      calls (exec (_docker_start_container n) w) =
        calls w ++ [CContainersGet n; CStart c] ∧
      result (_docker_stop_container n) w = Ret (ok (eng_stop c g.2).1) ∧
      calls (exec (_docker_stop_container n) w) =
        calls w ++ [CContainersGet n; CStop c] ∧
      result (_docker_remove_container n) w = Ret (ok (eng_remove c true g.2).1) ∧
      calls (exec (_docker_remove_container n) w) =
        calls w ++ [CContainersGet n; CRemove c true]
  end.
Proof.
  intros Hc g. subst g. unfold result, exec.
  rewrite _docker_start_container_eq, _docker_stop_container_eq,
    _docker_remove_container_eq.
  pose proof (get_then_trace n CStart eng_start w s Hc) as H1.
  pose proof (get_then_trace n CStop eng_stop w s Hc) as H2.
  pose proof (get_then_trace n (λ c, CRemove c true) (λ c, eng_remove c true) w s Hc)
    as H3.
  cbv zeta in H1, H2, H3.
  destruct (eng_containers_get n s).1.
  - destruct H1 as [-> _], H2 as [-> _], H3 as [-> _]. by split_and!.
  - destruct H1 as [-> ->], H2 as [-> ->], H3 as [-> ->]. by split_and!.
Qed.

(** X13. For a project whose two port columns hold integers, the start
    request replies 400 exactly when one of them is 0; every other pair of
    integers, negative or above 65535 included, passes the guard. *)
Theorem start_guard_on_integer_ports pid p a b w :
  projects w !! pid = Some p →
  port p = PyInt a →
  docker_port p = PyInt b →
  ∃ r, result (start_docker pid) w = Ret r ∧
       (code r = 400 ↔ a = 0%Z ∨ b = 0%Z) ∧
       (code r = 202 ↔ a ≠ 0%Z ∧ b ≠ 0%Z).
Proof.
  intros Hp Ha Hb. unfold result. rewrite (start_docker_pre pid p w Hp).
  assert (ports_configured p = negb (a =? 0)%Z && negb (b =? 0)%Z) as ->.
  { unfold ports_configured, parse_ports, int_or_None. rewrite Ha, Hb.
    unfold PyInt. simpl.
    destruct (a =? 0)%Z eqn:Ea, (b =? 0)%Z eqn:Eb; simpl; rewrite ?Ea, ?Eb; done. }
  assert (∀ r : Response, code r = 202 → a ≠ 0%Z → b ≠ 0%Z →
            (code r = 400 ↔ a = 0%Z ∨ b = 0%Z) ∧ (code r = 202 ↔ a ≠ 0%Z ∧ b ≠ 0%Z))
    as Hyes.
  { intros r -> Hna Hnb. split; split; try done. by intros [? | ?]. }
  assert (∀ r : Response, code r = 400 → a = 0%Z ∨ b = 0%Z →
            (code r = 400 ↔ a = 0%Z ∨ b = 0%Z) ∧ (code r = 202 ↔ a ≠ 0%Z ∧ b ≠ 0%Z))
    as Hno.
  { intros r -> Hz. split; split; try done. intros [Hna Hnb]. by destruct Hz. }
  destruct (Z.eqb_spec a 0), (Z.eqb_spec b 0); simpl;
    try (eexists; split; [done |]; apply Hno; [done | auto]; fail).
  case_bool_decide; [eexists; split; [done |]; by apply Hyes |].
  destruct (_docker_image_exists_returns (docker_image p) w) as (ie & Hie & _).
  destruct (_docker_container_exists_returns (docker_name p)
              (exec (_docker_image_exists (docker_image p)) w))
    as (ce & Hce & _).
  rewrite bind_eq, Hie, bind_eq, Hce, bind_eq. simpl.
  eexists; split; [done |]. by apply Hyes.
Qed.
End Further.

(** ** Properties of the image list, the upload and the decorator *)

Section ListImagesProperties.
Context {σ : Type} `{!Engine σ, !ImageStore σ}.
Variable float : Type.
Variable size_mb : Z → float.
Implicit Types (w : World σ).

Lemma list_images_loop (images : list Image) (acc : list (ImageInfo float)) :
  fold_left (list_images_append float size_mb) images acc =
  acc ++ map (λ img, {| info_id := i_short_id img;
                        info_name := default ("<none>:" +:+ i_short_id img)
                                       (head (i_tags img));
                        info_tags := i_tags img;
                        info_size := size_mb (default 0%Z (i_Size img));
                        info_created := default "" (i_Created img) |}) images.
Proof.
  revert acc. induction images as [|img images IH]; intros acc; simpl.
  - by rewrite app_nil_r.
  - rewrite IH. unfold list_images_append at 1.
    rewrite <- app_assoc. simpl. by destruct (i_tags img).
Qed.

(** X14. [_docker_list_images] never raises. Without a client, or when the
    daemon's listing raises, it returns the empty list; otherwise it
    returns one entry per image, in the daemon's order, named by the first
    tag of the image, or by [<none>:] and its short id when it has no tag,
    with a missing size read as 0 and a missing creation date as the
    empty string. The store and the pending threads are as before. *)
Theorem list_images_entries w :
  ∃ l,
    _docker_list_images float size_mb w =
      (Ret l, exec (_docker_list_images float size_mb) w) ∧
    DOCKER_STATUS (exec (_docker_list_images float size_mb) w) = DOCKER_STATUS w ∧
    threads (exec (_docker_list_images float size_mb) w) = threads w ∧
    match docker_client w with
    | None => l = []
    | Some s =>
        match (eng_images_list s).1 with
        | inl _ => l = []
        | inr images =>
            l = map (λ img,
                       {| info_id := i_short_id img;
                          info_name := default ("<none>:" +:+ i_short_id img)
                                         (head (i_tags img));
                          info_tags := i_tags img;
                          info_size := size_mb (default 0%Z (i_Size img));
                          info_created := default "" (i_Created img) |}) images
        end
    end.
Proof.
  unfold exec, _docker_list_images, images_list, logger, try_except.
  rewrite bind_eq. simpl.
  destruct (docker_client w) as [s|] eqn:Hc; simpl.
  2: { eexists. rewrite ?bind_eq. simpl. by split_and!. }
  rewrite ?bind_eq, ?Hc. simpl.
  destruct (eng_images_list s) as [[e|images] s'] eqn:Hl; simpl.
  - rewrite ?bind_eq. simpl. eexists. by split_and!.
  - rewrite ?bind_eq. simpl. eexists. split_and!; try done.
    by rewrite list_images_loop.
Qed.

End ListImagesProperties.

Section UploadProperties.
Context {σ : Type} `{!ContainerFiles σ}.
Variable exn_str : pyexn → string.

Lemma append_nil_l (s : string) : "" +:+ s = s.
Proof using Type. reflexivity. Qed.

Lemma append_cons c (s t : string) : String c s +:+ t = String c (s +:+ t).
Proof using Type. reflexivity. Qed.

Lemma rstrip_slash_split s : ∃ n, s = rstrip_slash s +:+ slashes n.
Proof using Type.
  induction s as [|c s [n IH]]; [by exists 0 |].
  simpl. destruct (Ascii.eqb c (Ascii.ascii_of_nat 47)) eqn:Hc; simpl.
  - destruct (String.eqb (rstrip_slash s) EmptyString) eqn:He; simpl.
    + apply Ascii.eqb_eq in Hc. apply String.eqb_eq in He.
      exists (S n). rewrite He, append_nil_l in IH. simpl.
      unfold slash. rewrite append_nil_l, append_cons, append_nil_l.
      congruence.
    + exists n. rewrite append_cons. congruence.
  - exists n. rewrite append_cons. congruence.
Qed.

Lemma rstrip_slash_no_trailing s x : rstrip_slash s ≠ x +:+ slash.
Proof using Type.
  revert x. induction s as [|c s IH]; intros x; simpl.
  - destruct x; [rewrite append_nil_l | rewrite append_cons]; done.
  - destruct (Ascii.eqb c (Ascii.ascii_of_nat 47) &&
              String.eqb (rstrip_slash s) EmptyString) eqn:Hb.
    + destruct x; [rewrite append_nil_l | rewrite append_cons]; done.
    + destruct x as [|c' x]; [rewrite append_nil_l | rewrite append_cons].
      * unfold slash. intros [= -> He]. rewrite He in Hb.
        by rewrite Ascii.eqb_refl in Hb.
      * intros [= -> He]. by apply (IH x).
Qed.

(** X15. The upload puts a one-member archive (the file under its name,
    with its length and mode 0o644) into the target directory, after
    trying to create that directory; whether the creation succeeded,
    failed or raised makes no difference. It reports success exactly when
    the daemon accepted the archive, and then names the file by the target
    directory without its trailing slashes, one slash, and the file name. *)
Theorem upload_outcome c data t f s :
  let mkdir := eng_exec_run c ("mkdir -p " +:+ t) "root" s in
  let member := {| tm_info := {| ti_name := f; ti_size := String.length data;
                                 ti_mode := 420%N |};
                   tm_data := data |} in
  let put := eng_put_archive c t [member] mkdir.2 in
  let r := _upload_to_container exn_str c data t f s in
  r.2 = put.2 ∧
  (r.1.1 = true ↔ put.1 = inr true) ∧
  (r.1.1 = true →
   ∃ d n, t = d +:+ slashes n ∧ (∀ x, d ≠ x +:+ slash) ∧
          r.1.2 = "文件已成功上传到 " +:+ d +:+ "/" +:+ f).
Proof.
  intros mkdir member put r. subst r. unfold _upload_to_container.
  fold mkdir. fold member. fold put.
  destruct put.1 as [e|[]] eqn:Hput; simpl.
  - split; [done |]. split; [split; done | done].
  - split; [done |]. split; [split; done |]. intros _.
    destruct (rstrip_slash_split t) as [n Hn].
    exists (rstrip_slash t), n. split; [exact Hn |].
    split; [intros x; apply rstrip_slash_no_trailing | done].
  - split; [done |]. split; [split; done | done].
Qed.

End UploadProperties.

Section DecoratorProperties.
Context {σ : Type} `{!Engine σ}.
Variable project_gid : Project → string.
Implicit Types (w : World σ) (p : Project) (u : CurrentUser).

(** X16. When the lookup finds no project the decorator ends the request
    with 404. When it finds one: a logged-in user whose group is not empty
    and is the project's group gets the reply and the effects of the view;
    every other logged-in user is ended with 403; for the anonymous user
    reading [current_user.gid] raises [AttributeError]. In all cases but
    the first of these three the view does not run and the state is as
    before, whatever the view is. *)
Theorem group_gate pid u (func : string → Py σ Response) w :
  (projects w !! pid = None →
   group_required_pid project_gid u func pid w = (Ret (inl 404), w)) ∧
  ∀ p, projects w !! pid = Some p →
       match u with
       | AnonymousUser =>
           group_required_pid project_gid u func pid w = (Raise AttributeError, w)
       | LoggedIn gid =>
           if bool_decide (gid = Some (project_gid p) ∧ project_gid p ≠ "")
           then group_required_pid project_gid u func pid w =
                  (match result (func pid) w with
                   | Ret r => Ret (inr r)
                   | Raise e => Raise e
                   end, exec (func pid) w)
           else group_required_pid project_gid u func pid w = (Ret (inl 403), w)
       end.
Proof.
  unfold group_required_pid, get_project_by_pid. split.
  { intros Hp. rewrite bind_eq. simpl. by rewrite Hp. }
  intros p Hp. rewrite bind_eq. simpl. rewrite Hp.
  destruct u as [|gid]; [done |].
  case_bool_decide as Hg.
  - destruct Hg as [-> Hne]. repeat (rewrite bind_eq; simpl).
    rewrite String.eqb_refl.
    destruct (String.eqb_spec (project_gid p) ""); [done |]. simpl.
    rewrite bind_eq. unfold result, exec.
    by destruct (func pid w) as [[r|e] w1].
  - repeat (rewrite bind_eq; simpl).
    destruct gid as [g|]; simpl; [| done].
    destruct (String.eqb_spec g ""); simpl; [done |].
    destruct (String.eqb_spec g (project_gid p)); simpl; [| done].
    exfalso. apply Hg. split; congruence.
Qed.

End DecoratorProperties.

(** ** The handlers on concrete states *)

(** The scenario of the spec: [P] has no image yet; the start is accepted,
    the worker builds the image and creates the container, the status
    becomes [running], and a later stop sets [stopped]. *)
Example scenario :
  map (λ r, match r with Ret x => (code x, status x) | Raise _ => (0, None) end)
      (run [POST_start "P"; Scheduled 0; GET_status "P"; POST_stop "P";
            GET_status "P"] world0).1 =
  [(202, Some "starting"); (200, Some "running"); (200, Some "stopped");
   (200, Some "stopped")].
Proof. vm_compute. reflexivity. Qed.

(** C2, as stated, fails: [Q] has no host port and its entry reads
    [starting], yet the start request is answered with the configuration
    error 400 and not with state [starting]. *)
Lemma start_dedup_missing_port_counterexample :
  projects world_Q_starting !! "Q" = Some Q ∧
  DOCKER_STATUS world_Q_starting !! "Q" = Some "starting" ∧
  port Q = PyNone ∧
  start_docker "Q" world_Q_starting =
    (Ret (jsonify false (Some "未配置项目端口或容器端口，无法启动") None 400),
     world_Q_starting) ∧
  result (start_docker "Q") world_Q_starting ≠
    Ret (jsonify true (Some "启动中") (Some "starting") 202).
Proof. split_and!; [reflexivity.. | vm_compute; discriminate]. Qed.

Lemma start_dedup_when_configured_witness :
  projects world_P_starting !! "P" = Some P ∧
  ports_configured P = true ∧
  DOCKER_STATUS world_P_starting !! "P" = Some "starting" ∧
  start_docker "P" world_P_starting =
    (Ret (jsonify true (Some "启动中") (Some "starting") 202), world_P_starting).
Proof.
  split_and!; [reflexivity.. |].
  apply (start_dedup_when_configured "P" P); reflexivity.
Defined.

(** C3 fails on the code: the request that answers "starting" has not
    written [starting]; the write is the first statement of the worker. A
    second request that arrives before the worker of the first has run is
    accepted like the first, two workers are started, and the daemon is
    asked twice to build the image and to create the container. The second
    creation is refused, so the store ends at [stopped] while the
    container of the first worker is running. *)
Example double_start_builds_twice :
  DOCKER_STATUS (exec (start_docker "P") world0) !! "P" = None ∧
  (run [POST_start "P"; POST_start "P"] world0).1 =
    [Ret (jsonify true (Some "启动已开始") (Some "starting") 202);
     Ret (jsonify true (Some "启动已开始") (Some "starting") 202)] ∧
  length (threads (run [POST_start "P"; POST_start "P"] world0).2) = 2 ∧
  List.filter build_or_run
    (calls (run [POST_start "P"; POST_start "P"; Scheduled 0; Scheduled 0] world0).2) =
    [CImagesBuild "/srv/uniweb" "img:v1";
     CContainersRun (run_args_of "img:v1" "c-P" (Some 20001%Z) (Some 8080%Z)
                       1 "1g" "1.5g" 8);
     CImagesBuild "/srv/uniweb" "img:v1";
     CContainersRun (run_args_of "img:v1" "c-P" (Some 20001%Z) (Some 8080%Z)
                       1 "1g" "1.5g" 8)] ∧
  DOCKER_STATUS
    (run [POST_start "P"; POST_start "P"; Scheduled 0; Scheduled 0] world0).2 !! "P" =
    Some "stopped" ∧
  (sim_containers <$>
     docker_client
       (run [POST_start "P"; POST_start "P"; Scheduled 0; Scheduled 0] world0).2)
    = Some {["c-P" := "running"]}.
Proof. split_and!; vm_compute; reflexivity. Qed.

(** C4, as stated, fails, in two ways. The worker does not query the
    daemon, it acts on the answers the request got: at [world_stale] the
    pending worker of [P] was told that the image and the container are
    absent, the daemon meanwhile has both, and the worker still builds the
    image and calls run, does not call start, and leaves [stopped]. And a
    statement of the worker can raise: then the image is absent and no
    build is sent. *)
Lemma worker_acts_on_stale_answers_counterexample :
  threads world_stale = [worker_P] ∧
  k_image_exists worker_P = false ∧
  k_container_exists worker_P = false ∧
  result (_docker_image_exists "img:v1") world_stale = Ret true ∧
  result (_docker_container_exists "c-P") world_stale = Ret true ∧
  drop (length (calls world_stale)) (calls (run_thread 0 world_stale)) =
    [CImagesBuild "/srv/uniweb" "img:v1";
     CContainersRun (run_args_of "img:v1" "c-P" (Some 20001%Z) (Some 8080%Z)
                       1 "1g" "1.5g" 8)] ∧
  DOCKER_STATUS (run_thread 0 world_stale) !! "P" = Some "stopped" ∧
  result (_docker_image_exists "img:v1") (set_faults [true] world0) = Ret false ∧
  result (_build_and_start worker_P) (set_faults [true] world0) =
    Raise DetachedInstanceError ∧
  calls (exec (_build_and_start worker_P) (set_faults [true] world0)) =
    calls (set_faults [true] world0).
Proof. split_and!; vm_compute; reflexivity. Qed.

Lemma start_sequence_witness :
  projects world0 !! "P" = Some P ∧
  ports_configured P = true ∧
  DOCKER_STATUS world0 !! "P" ≠ Some "starting" ∧
  ∃ k, threads (exec (start_docker "P") world0) = [k] ∧
       k_image_exists k = false ∧
       k_container_exists k = false ∧
       DOCKER_STATUS
         (exec (_build_and_start k) (exec (start_docker "P") world0)) !! "P" =
         Some "running" ∧
       last (calls (exec (_build_and_start k) (exec (start_docker "P") world0))) =
         Some (CContainersRun
                 (run_args_of "img:v1" "c-P" (Some 20001%Z) (Some 8080%Z)
                    1 "1g" "1.5g" 8)).
Proof.
  split_and!; [reflexivity | reflexivity | discriminate |].
  destruct (start_sequence "P" P world0)
    as (k & Hstart & Hpid & Hq1 & Hq2 & Hworker);
    [reflexivity | reflexivity | discriminate |].
  cbv zeta in Hstart, Hworker.
  rewrite (exec_of _ _ _ _ Hstart).
  assert (k_image_exists k = false) as Hie.
  { assert (result (_docker_image_exists (docker_image P)) world0 = Ret false)
      as Hc by (vm_compute; reflexivity).
    rewrite Hc in Hq1. by injection Hq1. }
  assert (k_container_exists k = false) as Hce.
  { assert (result (_docker_container_exists (docker_name P))
              (exec (_docker_image_exists (docker_image P)) world0) = Ret false)
      as Hc by (vm_compute; reflexivity).
    rewrite Hc in Hq2. by injection Hq2. }
  exists k. split; [reflexivity |]. split; [exact Hie |]. split; [exact Hce |].
  match goal with
  | |- context [exec (_build_and_start k) ?w'] =>
      destruct (Hworker w' eq_refl) as [_ Hgo]
  end.
  match type of Hgo with
  | ∀ w1, _ ∨ (_ ∧ _ ∧ w1 = ?wb) → _ =>
      destruct (Hgo wb) as [Hrun _]; [right; split_and!; [exact Hie | | reflexivity] |]
  end.
  { vm_compute. reflexivity. }
  destruct (Hrun Hce) as (cid & Hcid & ->).
  assert (cid = "id-c-P") as ->.
  { vm_compute in Hcid. by injection Hcid as <-. }
  split; vm_compute; reflexivity.
Defined.

Lemma status_query_witness :
  projects world_P_starting !! "P" = Some P ∧
  store_valid world_P_starting ∧
  project_docker_status "P" world_P_starting =
    (Ret (jsonify true None (Some "starting") 200), world_P_starting).
Proof.
  assert (store_valid world_P_starting) as Hvalid.
  { intros pid s Hs. unfold world_P_starting, boot in Hs. simpl in Hs.
    apply lookup_singleton_Some in Hs as [_ <-].
    right; left; reflexivity. }
  split_and!; [reflexivity | exact Hvalid |].
  apply (status_query "P" P world_P_starting); [reflexivity | exact Hvalid |].
  reflexivity.
Defined.



Lemma start_rejects_missing_port_witness :
  projects world0 !! "Q" = Some Q ∧
  (truth (port Q) = false ∨ as_int (port Q) = None ∨
   truth (docker_port Q) = false ∨ as_int (docker_port Q) = None) ∧
  start_docker "Q" world0 =
    (Ret (jsonify false (Some "未配置项目端口或容器端口，无法启动") None 400),
     world0).
Proof.
  split_and!; [reflexivity | left; reflexivity |].
  apply (start_rejects_missing_port "Q" Q world0); [reflexivity |].
  left; reflexivity.
Defined.

(** C9, as stated, fails: stopping the container of [P] when the daemon
    does not know it (not found), when the daemon refuses the stop
    (operation failed) and when the daemon cannot be reached gives one and
    the same result, [False]. *)
Lemma stop_failures_indistinguishable_counterexample :
  (eng_containers_get "c-P" fresh_daemon).1 = inl NotFound ∧
  (eng_stop (sim_handle "c-P" "running") refusing_daemon).1 = inl APIError ∧
  (eng_containers_get "c-P" down_daemon).1 = inl ConnectionError ∧
  result (_docker_stop_container "c-P") world0 = Ret false ∧
  result (_docker_stop_container "c-P") world_refusing = Ret false ∧
  result (_docker_stop_container "c-P") world_down = Ret false.
Proof. split_and!; reflexivity. Qed.

Lemma wrappers_collapse_failures_witness :
  docker_client world_down = Some down_daemon ∧
  result (_docker_container_exists "c-P") world_down = Ret false ∧
  result (_docker_container_status "c-P") world_down = Ret "stopped" ∧
  result (_docker_start_container "c-P") world_down = Ret false ∧
  result (_docker_stop_container "c-P") world_down = Ret false ∧
  result (_docker_remove_container "c-P") world_down = Ret false.
Proof.
  split; [reflexivity |].
  destruct (wrappers_collapse_failures world_down down_daemon ConnectionError)
    as (_ & _ & _ & Hget & _); [reflexivity |].
  apply Hget. reflexivity.
Defined.

Lemma no_client_defaults_witness :
  docker_client world_no_client = None ∧
  stop_docker "P" world_no_client =
    (Ret (jsonify false (Some "容器不存在") None 404), world_no_client) ∧
  ∀ k, DOCKER_STATUS (exec (_build_and_start k) world_no_client) !! k_pid k =
       Some "stopped".
Proof.
  split; [reflexivity |].
  destruct (no_client_defaults world_no_client) as (_ & _ & _ & _ & _ & _ & _ & _ & Hreq & Hworker);
    [reflexivity |].
  split; [| exact Hworker].
  apply (Hreq "P" P). reflexivity.
Defined.

(** The branches of the worker on the in-memory daemon. *)
Example worker_build_fails :
  let daemon := {| sim_up := true; sim_images := []; sim_build_ok := false;
                   sim_containers := ∅; sim_refuse := false |} in
  let final := (run [POST_start "P"; Scheduled 0] (boot (Some daemon) ∅)).2 in
  DOCKER_STATUS final !! "P" = Some "stopped" ∧
  List.filter build_or_run (calls final) = [CImagesBuild "/srv/uniweb" "img:v1"].
Proof. split; vm_compute; reflexivity. Qed.

Example worker_starts_existing :
  let daemon := {| sim_up := true; sim_images := ["img:v1"]; sim_build_ok := true;
                   sim_containers := {["c-P" := "exited"]}; sim_refuse := false |} in
  let final := (run [POST_start "P"; Scheduled 0] (boot (Some daemon) ∅)).2 in
  DOCKER_STATUS final !! "P" = Some "running" ∧
  List.filter build_or_run (calls final) = [] ∧
  last (calls final) = Some (CStart (sim_handle "c-P" "exited")).
Proof. split_and!; vm_compute; reflexivity. Qed.

(** A fault on the worker right after it wrote [starting]: the [finally]
    block leaves [stopped]. *)
Example worker_fault_is_cleaned_up :
  let k := {| k_pid := "P"; k_project := P; k_working_dir := None;
              k_image_name := "img:v1"; k_container_name := "c-P";
              k_host_port := Some 20001%Z; k_container_port := Some 8080%Z;
              k_CPU_COUNT := 1; k_MEM_LIMIT := "1g"; k_MEMSWAP_LIMIT := "1.5g";
              k_PIDS_LIMIT := 8; k_image_exists := true;
              k_container_exists := false |} in
  let w := set_faults [true] world0 in
  result (_build_and_start k) w = Raise DetachedInstanceError ∧
  DOCKER_STATUS (exec (_build_and_start_try k) w) !! "P" = Some "starting" ∧
  DOCKER_STATUS (exec (_build_and_start k) w) !! "P" = Some "stopped" ∧
  calls (exec (_build_and_start k) w) = [].
Proof. split_and!; vm_compute; reflexivity. Qed.

(** ** The further properties on concrete states *)

Lemma store_stays_within_lifecycle_witness :
  store_valid world_P_starting ∧
  DOCKER_STATUS (run [POST_start "P"; POST_stop "Q"] world_P_starting).2 !! "P" =
    Some "starting" ∧
  ("starting" = "stopped" ∨ "starting" = "starting" ∨ "starting" = "running").
Proof.
  assert (store_valid world_P_starting) as Hvalid.
  { intros pid s Hs. unfold world_P_starting, boot in Hs. simpl in Hs.
    apply lookup_singleton_Some in Hs as [_ <-].
    right; left; reflexivity. }
  split_and!; [exact Hvalid | reflexivity |].
  apply (store_stays_within_lifecycle [POST_start "P"; POST_stop "Q"]
           world_P_starting "P" "starting" Hvalid).
  reflexivity.
Defined.

Lemma unknown_project_404_witness :
  projects world0 !! "Z" = None ∧
  start_docker "Z" world0 =
    (Ret (jsonify false (Some "项目不存在") None 404), world0).
Proof.
  split; [reflexivity |].
  apply (unknown_project_404 "Z" world0). reflexivity.
Defined.

Lemma other_projects_untouched_witness :
  "P" ≠ "Q" ∧
  DOCKER_STATUS (exec (_build_and_start worker_P) world_Q_starting) !! "Q" =
    DOCKER_STATUS world_Q_starting !! "Q".
Proof.
  split; [discriminate |].
  destruct (other_projects_untouched "P" "Q" world_Q_starting) as (_ & _ & Hworker);
    [discriminate |].
  apply Hworker. reflexivity.
Defined.

Lemma stop_then_status_witness :
  projects world_P_running !! "P" = Some P ∧
  result (stop_docker "P") world_P_running =
    Ret (jsonify true (Some "容器已停止") (Some "stopped") 200) ∧
  project_docker_status "P" (exec (stop_docker "P") world_P_running) =
    (Ret (jsonify true None (Some "stopped") 200),
     exec (stop_docker "P") world_P_running).
Proof.
  split_and!; [reflexivity | vm_compute; reflexivity |].
  apply (stop_then_status "P" P world_P_running
           (jsonify true (Some "容器已停止") (Some "stopped") 200));
    [reflexivity | vm_compute; reflexivity | reflexivity].
Defined.

Lemma worker_then_status_witness :
  projects world0 !! k_pid worker_P = Some P ∧
  ∃ s, (s = "stopped" ∨ s = "running") ∧
       DOCKER_STATUS (exec (_build_and_start worker_P) world0) !! "P" = Some s ∧
       project_docker_status "P" (exec (_build_and_start worker_P) world0) =
         (Ret (jsonify true None (Some s) 200),
          exec (_build_and_start worker_P) world0).
Proof.
  split; [reflexivity |].
  apply (worker_then_status worker_P P world0). reflexivity.
Defined.

Lemma wrappers_look_up_first_witness :
  docker_client world_P_running = Some running_daemon ∧
  calls (exec (_docker_remove_container "c-P") world_P_running) =
    [CContainersGet "c-P"; CRemove (sim_handle "c-P" "running") true] ∧
  calls (exec (_docker_stop_container "c-Q") world_P_running) =
    [CContainersGet "c-Q"].
Proof.
  split; [reflexivity |]. split.
  - pose proof (wrappers_look_up_first "c-P" world_P_running running_daemon eq_refl)
      as Hfound.
    cbv zeta in Hfound.
    change ((eng_containers_get "c-P" running_daemon).1)
      with (@inr pyexn Container (sim_handle "c-P" "running")) in Hfound.
    exact (proj2 (proj2 (proj2 (proj2 (proj2 Hfound))))).
  - pose proof (wrappers_look_up_first "c-Q" world_P_running running_daemon eq_refl)
      as Hmissing.
    cbv zeta in Hmissing.
    change ((eng_containers_get "c-Q" running_daemon).1)
      with (@inl pyexn Container NotFound) in Hmissing.
    exact (proj1 (proj2 (proj2 (proj2 Hmissing)))).
Defined.

Lemma start_guard_on_integer_ports_witness :
  projects world0 !! "P" = Some P ∧
  port P = PyInt 20001 ∧
  docker_port P = PyInt 8080 ∧
  ∃ r, result (start_docker "P") world0 = Ret r ∧ code r = 202.
Proof.
  split_and!; [reflexivity.. |].
  destruct (start_guard_on_integer_ports "P" P 20001 8080 world0)
    as (r & Hr & _ & Haccept); [reflexivity.. |].
  exists r. split; [exact Hr |]. apply Haccept. split; discriminate.
Defined.

Lemma group_gate_witness :
  projects world0 !! "P" = Some P ∧
  group_required_pid all_in_g1 outsider start_docker "P" world0 =
    (Ret (inl 403), world0) ∧
  group_required_pid all_in_g1 AnonymousUser start_docker "P" world0 =
    (Raise AttributeError, world0) ∧
  result (group_required_pid all_in_g1 member start_docker "P") world0 =
    Ret (inr (jsonify true (Some "启动已开始") (Some "starting") 202)).
Proof.
  split; [reflexivity |]. split_and!.
  - exact (proj2 (group_gate all_in_g1 "P" outsider start_docker world0) P eq_refl).
  - exact (proj2 (group_gate all_in_g1 "P" AnonymousUser start_docker world0)
             P eq_refl).
  - unfold result at 1.
    rewrite (proj2 (group_gate all_in_g1 "P" member start_docker world0) P eq_refl).
    reflexivity.
Defined.

(** The image list and the upload on the in-memory daemon. *)
Example list_images_of_running_daemon :
  result (_docker_list_images Z (λ size, (size / 1048576)%Z)) world_P_running =
    Ret [{| info_id := "sha256:img:v1"; info_name := "img:v1";
            info_tags := ["img:v1"]; info_size := 1%Z; info_created := "" |}] ∧
  result (_docker_list_images Z (λ size, (size / 1048576)%Z)) world_down = Ret [] ∧
  result (_docker_list_images Z (λ size, (size / 1048576)%Z)) world_no_client = Ret [].
Proof. split_and!; reflexivity. Qed.

Example upload_into_directory_with_slashes :
  (_upload_to_container (λ _, "error") (sim_handle "c-P" "running")
     "print(1)" "/app//" "main.py" running_daemon).1 =
    (true, "文件已成功上传到 /app/main.py") ∧
  (_upload_to_container (λ _, "error") (sim_handle "c-Q" "running")
     "print(1)" "/app" "main.py" running_daemon).1 =
    (false, "上传文件到容器时发生错误: error").
Proof. split; reflexivity. Qed.

